(** * BeeRef items: a shallow embedding of [beeref/items.py]

    The module [beeref.items] defines the two kinds of items a user can put
    on the canvas, images ([BeePixmapItem]) and text notes ([BeeTextItem]),
    on top of the mixin [BeeItemMixin].  The embedding keeps the shape of the
    Python code: objects live in a store and are passed by reference, a
    method is a computation over that store which either returns a value or
    raises, and keyword arguments and JSON payloads are dictionaries of
    Python values. *)

From Stdlib Require Import ZArith QArith Qminmax Lqa String Ascii SpecFloat.
From stdpp Require Import base option gmap strings list fin_maps fin_sets.

Set Warnings "-register-all".
Local Open Scope string_scope.

(** ** Python values *)

(** Objects are passed by reference. *)
Abbreviation ref := positive (only parsing).

(** The values that travel through keyword arguments and persisted
    payloads.  An [int] is an integer of any size; a [float] is a double,
    given by the rational it denotes (infinities and NaN are not
    represented).  A [str] is given by its UTF-8 encoding. *)
Inductive pyval : Type :=
| PNone
| PBool (b : bool)
| PInt (z : Z)
| PFloat (q : Q)
| PStr (s : string)
| PObj (r : ref)
| PDict (d : gmap string pyval).

(** Truth value testing, as [bool(v)]. *)
Definition truthy (v : pyval) : bool :=
  match v with
  | PNone => false
  | PBool b => b
  | PInt z => negb (Z.eqb z 0)
  | PFloat q => negb (Qeq_bool q 0)
  | PStr s => negb (String.eqb s "")
  | PObj _ => true
  | PDict d => negb (Nat.eqb (size d) 0)
  end.

(** [a or b] on values without effects. *)
Definition py_or (a b : pyval) : pyval := if truthy a then a else b.

(** The integer a finite double with sign [s], mantissa [m] and exponent
    [e] stands for, when it is one. *)
Definition Z_of_finite (s : bool) (m : positive) (e : Z) : Z :=
  let a := if (0 <=? e)%Z then (Zpos m * 2 ^ e)%Z
           else (Zpos m / 2 ^ (- e))%Z in
  if s then (- a)%Z else a.

(** [float(z)] for an [int]: the nearest double, ties to even; there is
    none when the integer is too large for a double. *)
Definition float_of_int (z : Z) : option Z :=
  match binary_normalize 53 1024 z 0 false with
  | S754_zero _ => Some 0%Z
  | S754_finite s m e => Some (Z_of_finite s m e)
  | _ => None
  end.

(** The number a value converts to where the toolkit expects a float: a
    float as it is, an integer (or boolean) as the nearest double, and
    nothing for an integer beyond the doubles or for any other value. *)
Definition as_float (v : pyval) : option Q :=
  match v with
  | PFloat q => Some q
  | PInt z => inject_Z <$> float_of_int z
  | PBool b => Some (if b then 1%Q else 0%Q)
  | _ => None
  end.

(** The exact value of a number. *)
Definition num_value (v : pyval) : option Q :=
  match v with
  | PFloat q => Some q
  | PInt z => Some (inject_Z z)
  | PBool b => Some (if b then 1%Q else 0%Q)
  | _ => None
  end.

(** [v == q] for a number [q]: numbers compare by their exact values, and
    only numbers compare equal to a number. *)
Definition py_eq_num (v : pyval) (q : Q) : bool :=
  match num_value v with
  | Some a => Qeq_bool a q
  | None => false
  end.

(** The exceptions the module can raise.  [Dangling] is not a Python
    exception: it marks the use of a reference outside the store, which no
    Python program can produce. *)
Inductive PyErr : Type :=
| KeyError (key : string)
| TypeError
| AttributeError
| OverflowError
| UnknownTypeError (tag : string)
| Dangling.

(** ** Toolkit state of an item *)

(** What [QGraphicsItem] keeps for every item: selection flag, membership in
    the scene, position, stacking value, scale and rotation, and the parent
    item if there is one.  [flipped] stands for the mirroring
    transformation. *)
Record QGraphicsItem : Type := MkQGraphicsItem {
  isSelected : bool;
  in_scene : bool;
  pos_x : Q;
  pos_y : Q;
  zValue : Q;
  scale : Q;
  rotation : Q;
  flipped : bool;
  parentItem : option positive
}.

Definition setPos (x y : Q) (g : QGraphicsItem) : QGraphicsItem :=
  MkQGraphicsItem (isSelected g) (in_scene g) x y (zValue g) (scale g)
    (rotation g) (flipped g) (parentItem g).

Definition setZValue (z : Q) (g : QGraphicsItem) : QGraphicsItem :=
  MkQGraphicsItem (isSelected g) (in_scene g) (pos_x g) (pos_y g) z (scale g)
    (rotation g) (flipped g) (parentItem g).

Definition setScale (s : Q) (g : QGraphicsItem) : QGraphicsItem :=
  MkQGraphicsItem (isSelected g) (in_scene g) (pos_x g) (pos_y g) (zValue g) s
    (rotation g) (flipped g) (parentItem g).

Definition setRotation (a : Q) (g : QGraphicsItem) : QGraphicsItem :=
  MkQGraphicsItem (isSelected g) (in_scene g) (pos_x g) (pos_y g) (zValue g)
    (scale g) a (flipped g) (parentItem g).

(** A graphics item as the toolkit constructs it: outside any scene, not
    selected, at the origin, unscaled, unrotated, not mirrored, without a
    parent. *)
Definition new_QGraphicsItem : QGraphicsItem :=
  MkQGraphicsItem false false 0 0 0 1 0 false None.

(** A graphics item constructed as the child of [parent]: it joins the
    scene of its parent. *)
Definition child_QGraphicsItem (parent : positive) (g : QGraphicsItem) :
    QGraphicsItem :=
  MkQGraphicsItem false (in_scene g) 0 0 0 1 0 false (Some parent).

(** Modelled from the spec: [flip()] and [do_flip()] belong to
    [beeref.selection.SelectableMixin], which is not part of the sources at
    hand.  The flip state is a two-valued enumeration; [flip()] reads it as
    [1] (not flipped) or [-1] (flipped), the two numbers [items.py] compares
    it with. *)
Definition flip (g : QGraphicsItem) : Q := if flipped g then (-1 # 1) else 1.

(** Modelled from the spec: [do_flip()] of [SelectableMixin] toggles the flip
    enumeration of the item. *)
Definition do_flip (g : QGraphicsItem) : QGraphicsItem :=
  MkQGraphicsItem (isSelected g) (in_scene g) (pos_x g) (pos_y g) (zValue g)
    (scale g) (rotation g) (negb (flipped g)) (parentItem g).

(** Image data, for [QImage] and [QPixmap] alike. *)
Abbreviation QImage := (list Byte.byte) (only parsing).
Abbreviation QPixmap := (list Byte.byte) (only parsing).

(** A text cursor: position and anchor; they differ when text is selected. *)
Record QTextCursor : Type := MkQTextCursor {
  cursor_position : nat;
  cursor_anchor : nat
}.

(** [QTextCursor(document)]: a cursor at the start of the document. *)
Definition new_QTextCursor : QTextCursor := MkQTextCursor 0 0.

(** [Qt.TextInteractionFlag]. *)
Definition NoTextInteraction : Z := 0.
Definition TextEditorInteraction : Z := 19.

(** [Qt.Key] and [Qt.KeyboardModifier]. *)
Definition Key_Return : Z := 16777220.
Definition Key_Enter : Z := 16777221.
Definition NoModifier : Z := 0.

Record QKeyEvent : Type := MkQKeyEvent {
  key : Z;
  modifiers : Z;
  isAccepted : bool
}.

Definition accept (ev : QKeyEvent) : QKeyEvent :=
  MkQKeyEvent (key ev) (modifiers ev) true.

(** ** The two item classes *)

(** Instance state of a [BeePixmapItem]. *)
Record PixmapObj : Type := MkPixmapObj {
  pm_base : QGraphicsItem;
  pm_save_id : pyval;
  filename : pyval;
  pixmap : QPixmap
}.

(** *** The text document *)

Definition LF : ascii := ascii_of_nat 10.
Definition CR : ascii := ascii_of_nat 13.
Definition SP : ascii := ascii_of_nat 32.

(** In UTF-8, the paragraph and line separators U+2028 and U+2029 are the
    bytes E2 80 A8 and E2 80 A9, the frame markers U+FDD0 and U+FDD1 are
    EF B7 90 and EF B7 91, and the no-break space U+00A0 is C2 A0. *)
Definition is_separator (c c1 c2 : ascii) : bool :=
  (Ascii.eqb c (ascii_of_nat 226) && Ascii.eqb c1 (ascii_of_nat 128)
   && (Ascii.eqb c2 (ascii_of_nat 168) || Ascii.eqb c2 (ascii_of_nat 169)))
  || (Ascii.eqb c (ascii_of_nat 239) && Ascii.eqb c1 (ascii_of_nat 183)
      && (Ascii.eqb c2 (ascii_of_nat 144) || Ascii.eqb c2 (ascii_of_nat 145))).

Definition is_nbsp (c c1 : ascii) : bool :=
  Ascii.eqb c (ascii_of_nat 194) && Ascii.eqb c1 (ascii_of_nat 160).

(** The plain text of a document that was filled with [s]: a carriage
    return, alone or followed by a line feed, ends a paragraph as a line
    feed does, and so do the separators and the frame markers; all of them
    read back as line feeds, and a no-break space reads back as a space. *)
Fixpoint qt_plain (s : string) : string :=
  match s with
  | EmptyString => EmptyString
  | String c s1 =>
      if Ascii.eqb c CR then
        match s1 with
        | String c1 s2 =>
            if Ascii.eqb c1 LF then String LF (qt_plain s2)
            else String LF (qt_plain s1)
        | EmptyString => String LF EmptyString
        end
      else
        match s1 with
        | String c1 s2 =>
            if is_nbsp c c1 then String SP (qt_plain s2)
            else
              match s2 with
              | String c2 s3 =>
                  if is_separator c c1 c2 then String LF (qt_plain s3)
                  else String c (qt_plain s1)
              | EmptyString => String c (qt_plain s1)
              end
        | EmptyString => String c EmptyString
        end
  end.

(** What the document does with the first character of a string: the
    character it reads back as and the rest of the string, when it rewrites
    it. *)
Definition head_rewrite (s : string) : option (ascii * string) :=
  match s with
  | EmptyString => None
  | String c s1 =>
      if Ascii.eqb c CR then
        match s1 with
        | String c1 s2 => if Ascii.eqb c1 LF then Some (LF, s2) else Some (LF, s1)
        | EmptyString => Some (LF, EmptyString)
        end
      else
        match s1 with
        | String c1 s2 =>
            if is_nbsp c c1 then Some (SP, s2)
            else
              match s2 with
              | String c2 s3 =>
                  if is_separator c c1 c2 then Some (LF, s3) else None
              | EmptyString => None
              end
        | EmptyString => None
        end
  end.

(** *** Characters of a string *)

(** In UTF-8 the bytes 80 to BF continue a character; every other byte
    starts one. *)
Definition continues (c : ascii) : bool :=
  (128 <=? nat_of_ascii c)%nat && (nat_of_ascii c <? 192)%nat.

(** [len(s)]: the number of characters. *)
Fixpoint py_len (s : string) : nat :=
  match s with
  | EmptyString => 0
  | String c s' => if continues c then py_len s' else S (py_len s')
  end.

(** The slice of the first [n] characters of [s]. *)
Fixpoint py_take (n : nat) (s : string) : string :=
  match s with
  | EmptyString => EmptyString
  | String c s' =>
      if continues c then String c (py_take n s')
      else
        match n with
        | O => EmptyString
        | S n' => String c (py_take n' s')
        end
  end.

(** Instance state of a [BeeTextItem]; [document] is the text the document
    of the item was filled with. *)
Record TextObj : Type := MkTextObj {
  tx_base : QGraphicsItem;
  tx_save_id : pyval;
  document : string;
  is_editable : bool;
  edit_mode : bool;
  textCursor : QTextCursor;
  textInteractionFlags : Z
}.

(** [toPlainText()]: the plain text of the document. *)
Definition toPlainText (t : TextObj) : string := qt_plain (document t).

Inductive Item : Type :=
| Pixmap (p : PixmapObj)
| Text (t : TextObj).

(** The class attribute [TYPE]. *)
Inductive ItemClass : Type := BeePixmapItemCls | BeeTextItemCls.

Definition TYPE (cls : ItemClass) : string :=
  match cls with
  | BeePixmapItemCls => "pixmap"
  | BeeTextItemCls => "text"
  end.

Definition class_of (it : Item) : ItemClass :=
  match it with
  | Pixmap _ => BeePixmapItemCls
  | Text _ => BeeTextItemCls
  end.

Definition base (it : Item) : QGraphicsItem :=
  match it with
  | Pixmap p => pm_base p
  | Text t => tx_base t
  end.

Definition with_base (g : QGraphicsItem) (it : Item) : Item :=
  match it with
  | Pixmap p => Pixmap (MkPixmapObj g (pm_save_id p) (filename p) (pixmap p))
  | Text t =>
      Text (MkTextObj g (tx_save_id t) (document t) (is_editable t)
              (edit_mode t) (textCursor t) (textInteractionFlags t))
  end.

Definition save_id (it : Item) : pyval :=
  match it with
  | Pixmap p => pm_save_id p
  | Text t => tx_save_id t
  end.

Definition with_save_id (v : pyval) (it : Item) : Item :=
  match it with
  | Pixmap p => Pixmap (MkPixmapObj (pm_base p) v (filename p) (pixmap p))
  | Text t =>
      Text (MkTextObj (tx_base t) v (document t) (is_editable t)
              (edit_mode t) (textCursor t) (textInteractionFlags t))
  end.

(** ** The scene and the object store *)

(** Modelled from the spec: the scene class is not part of the sources at
    hand.  The scene holds the set of currently selected items, the flag
    telling that a rubber-band selection is in progress, the item being
    edited, and the increment [bring_to_front] adds to the largest stacking
    value. *)
Record Scene : Type := MkScene {
  selectedItems : gset positive;
  rubberband_active : bool;
  edit_item : option positive;
  Z_STEP : Q
}.

(** Modelled from the spec: the scene's "single selection" query. *)
Definition has_single_selection (sc : Scene) : bool :=
  Nat.eqb (size (selectedItems sc)) 1.

(** Modelled from the spec: whether anything is selected in the scene. *)
Definition has_selection (sc : Scene) : bool :=
  negb (Nat.eqb (size (selectedItems sc)) 0).

Definition set_edit_item (e : option positive) (sc : Scene) : Scene :=
  MkScene (selectedItems sc) (rubberband_active sc) e (Z_STEP sc).

Record World : Type := MkWorld {
  heap : gmap positive Item;
  the_scene : Scene
}.

(** ** Computations over the store *)

Inductive result (A : Type) : Type :=
| Ok (a : A)
| Raise (e : PyErr).
Arguments Ok {A} a.
Arguments Raise {A} e.

(** A method call: it may change the store, and an exception leaves the
    changes made before it in place. *)
Definition M (A : Type) : Type := World -> World * result A.

Definition ret {A} (a : A) : M A := fun w => (w, Ok a).

Definition raise {A} (e : PyErr) : M A := fun w => (w, Raise e).

Definition bind {A B} (c : M A) (k : A -> M B) : M B :=
  fun w =>
    match c w with
    | (w', Ok a) => k a w'
    | (w', Raise e) => (w', Raise e)
    end.

Declare Scope py_scope.
Delimit Scope py_scope with py.
Notation "'do' x <- c ; k" := (bind c (fun x => k))
  (at level 10, x name, c at level 100, k at level 200) : py_scope.
Notation "c ;; k" := (bind c (fun _ => k))
  (at level 100, k at level 200, right associativity) : py_scope.
Local Open Scope py_scope.

Definition get_world : M World := fun w => (w, Ok w).

(** Read the object behind a reference. *)
Definition deref (r : positive) : M Item :=
  fun w =>
    match heap w !! r with
    | Some it => (w, Ok it)
    | None => (w, Raise Dangling)
    end.

(** Overwrite the object behind a reference. *)
Definition store (r : positive) (it : Item) : M unit :=
  fun w => (MkWorld (<[r := it]> (heap w)) (the_scene w), Ok tt).

(** Allocate a new object. *)
Definition alloc (it : Item) : M positive :=
  fun w =>
    let r := fresh (dom (heap w)) in
    (MkWorld (<[r := it]> (heap w)) (the_scene w), Ok r).

Definition put_scene (sc : Scene) : M unit :=
  fun w => (MkWorld (heap w) sc, Ok tt).

(** [self.scene()]: the scene the item is in, or [None]. *)
Definition scene (it : Item) (w : World) : option Scene :=
  if in_scene (base it) then Some (the_scene w) else None.

(** ** [item_registry] and [register_item] *)

Definition register_item (cls : ItemClass)
    (registry : gmap string ItemClass) : gmap string ItemClass :=
  <[TYPE cls := cls]> registry.

(** The registry once the module is loaded: the decorator has run on the two
    classes, in the order of their definitions. *)
Definition item_registry : gmap string ItemClass :=
  register_item BeeTextItemCls (register_item BeePixmapItemCls ∅).

(** ** [BeeItemMixin] *)

Module BeeItemMixin.

Definition has_selection_outline (self : positive) : M pyval :=
  do it <- deref self;
  ret (PBool (isSelected (base it))).

(** [self.isSelected() and self.scene() and
    self.scene().has_single_selection()]: the value is that of the first
    falsy operand, [False] or [None], or that of the last one. *)
Definition has_selection_handles (self : positive) : M pyval :=
  do it <- deref self;
  do w <- get_world;
  if isSelected (base it) then
    match scene it w with
    | None => ret PNone
    | Some sc => ret (PBool (has_single_selection sc))
    end
  else ret (PBool false).

Definition selection_action_items (self : positive) : M (list positive) :=
  ret [self].

(** Modelled from the spec: the largest stacking value among the items of
    the scene ([0] for a scene without items). *)
Definition max_z (w : World) : Q :=
  foldr Qmax 0%Q
    (zValue ∘ base <$> filter (fun it => in_scene (base it) = true)
                         (snd <$> map_to_list (heap w))).

(** Modelled from the spec: [bring_to_front()] belongs to
    [SelectableMixin], which is not part of the sources at hand.  It sets
    the stacking value of the item to the largest one in its scene plus
    the scene's increment. *)
Definition bring_to_front (self : positive) : M unit :=
  do it <- deref self;
  do w <- get_world;
  match scene it w with
  | None => raise AttributeError
  | Some sc =>
      store self
        (with_base (setZValue (max_z w + Z_STEP sc)%Q (base it)) it)
  end.

Definition on_selected_change (self : positive) (value : pyval) : M unit :=
  do it <- deref self;
  do w <- get_world;
  if truthy value then
    match scene it w with
    | None => ret tt
    | Some sc =>
        if negb (has_selection sc) && negb (rubberband_active sc)
        then bring_to_front self
        else ret tt
    end
  else ret tt.

(** The toolkit setters take floats: a value that does not convert to a
    float is refused with [TypeError]. *)
Definition qt_setPos (self : positive) (x y : pyval) : M unit :=
  match as_float x, as_float y with
  | Some x', Some y' =>
      do it <- deref self; store self (with_base (setPos x' y' (base it)) it)
  | _, _ => raise TypeError
  end.

Definition qt_set (f : Q -> QGraphicsItem -> QGraphicsItem)
    (self : positive) (v : pyval) : M unit :=
  match as_float v with
  | Some q =>
      do it <- deref self; store self (with_base (f q (base it)) it)
  | None => raise TypeError
  end.

(** [kwargs.get(k, default)]. *)
Definition kwargs_get (kwargs : gmap string pyval) (k : string)
    (dflt : pyval) : pyval :=
  default dflt (kwargs !! k).

Definition update_from_data (self : positive)
    (kwargs : gmap string pyval) : M unit :=
  do it <- deref self;
  store self (with_save_id (kwargs_get kwargs "save_id" (save_id it)) it);;
  do it <- deref self;
  qt_setPos self (kwargs_get kwargs "x" (PFloat (pos_x (base it))))
                 (kwargs_get kwargs "y" (PFloat (pos_y (base it))));;
  do it <- deref self;
  qt_set setZValue self (kwargs_get kwargs "z" (PFloat (zValue (base it))));;
  do it <- deref self;
  qt_set setScale self (kwargs_get kwargs "scale" (PFloat (scale (base it))));;
  do it <- deref self;
  qt_set setRotation self
    (kwargs_get kwargs "rotation" (PFloat (rotation (base it))));;
  do it <- deref self;
  if negb (py_eq_num (kwargs_get kwargs "flip" (PInt 1)) (flip (base it)))
  then store self (with_base (do_flip (base it)) it)
  else ret tt.

End BeeItemMixin.

(** Apply a toolkit setter to the object behind a reference. *)
Definition on_base (f : QGraphicsItem -> QGraphicsItem) (r : positive) : M unit :=
  do it <- deref r; store r (with_base (f (base it)) it).

(** ** [BeePixmapItem] *)

Module BeePixmapItem.

(** [__init__(self, image, filename=None)].  [init_selectable()] belongs
    to [SelectableMixin]; it leaves the fields modelled here as the
    toolkit constructor set them. *)
Definition __init__ (image : QImage) (filename : pyval) : M positive :=
  alloc (Pixmap (MkPixmapObj new_QGraphicsItem PNone filename image)).

(** [item.filename], for whatever was passed as [item]. *)
Definition get_filename (item : pyval) : M pyval :=
  match item with
  | PObj r =>
      do it <- deref r;
      match it with
      | Pixmap p => ret (filename p)
      | Text _ => raise AttributeError
      end
  | _ => raise AttributeError
  end.

(** [item.filename = v]; only reached after [item.filename] was read. *)
Definition set_filename (item : pyval) (v : pyval) : M unit :=
  match item with
  | PObj r =>
      do it <- deref r;
      match it with
      | Pixmap p =>
          store r (Pixmap (MkPixmapObj (pm_base p) (pm_save_id p) v (pixmap p)))
      | Text _ => raise AttributeError
      end
  | _ => raise AttributeError
  end.

(** [data.get('filename')]. *)
Definition data_get_filename (data : pyval) : M pyval :=
  match data with
  | PDict d => ret (default PNone (d !! "filename"))
  | _ => raise AttributeError
  end.

Definition create_from_data (kwargs : gmap string pyval) : M pyval :=
  match kwargs !! "item" with
  | None => raise (KeyError "item")
  | Some item =>
      let data := default (PDict ∅) (kwargs !! "data") in
      do f <- get_filename item;
      do v <- (if truthy f then ret f else data_get_filename data);
      set_filename item v;;
      ret item
  end.

Definition get_extra_save_data (self : positive) : M (gmap string pyval) :=
  do it <- deref self;
  match it with
  | Pixmap p => ret {["filename" := filename p]}
  | Text _ => raise AttributeError
  end.

Definition setPixmap (pm : QPixmap) (r : positive) : M unit :=
  do it <- deref r;
  match it with
  | Pixmap p =>
      store r (Pixmap (MkPixmapObj (pm_base p) (pm_save_id p) (filename p) pm))
  | Text _ => raise AttributeError
  end.

Definition create_copy (self : positive) : M positive :=
  do it <- deref self;
  match it with
  | Pixmap p =>
      do item <- __init__ [] (filename p);
      setPixmap (pixmap p) item;;
      on_base (setPos (pos_x (pm_base p)) (pos_y (pm_base p))) item;;
      on_base (setZValue (zValue (pm_base p))) item;;
      on_base (setScale (scale (pm_base p))) item;;
      on_base (setRotation (rotation (pm_base p))) item;;
      (if Qeq_bool (flip (pm_base p)) (-1 # 1)
       then on_base do_flip item else ret tt);;
      ret item
  | Text _ => raise AttributeError
  end.

End BeePixmapItem.

(** ** [BeeTextItem] *)

Module BeeTextItem.

(** [__init__(self, text=None)]: the toolkit constructor is called with
    [text or "Text"].  Given a string, it fills the document with it; given
    an item, it is the toolkit's other constructor, which takes a parent
    item and leaves the document empty; anything else is refused.  The text
    colour set at the end only matters for painting and is left out. *)
Definition __init__ (text : pyval) : M positive :=
  match py_or text (PStr "Text") with
  | PStr s =>
      alloc (Text (MkTextObj new_QGraphicsItem PNone s true false
                     new_QTextCursor NoTextInteraction))
  | PObj parent =>
      do it <- deref parent;
      alloc (Text (MkTextObj (child_QGraphicsItem parent (base it)) PNone ""
                     true false new_QTextCursor NoTextInteraction))
  | _ => raise TypeError
  end.

(** The class is called with the payload unpacked into keywords: the
    payload must be a mapping whose only possible keyword is [text]. *)
Definition create_from_data (kwargs : gmap string pyval) : M positive :=
  match default (PDict ∅) (kwargs !! "data") with
  | PDict d =>
      if decide (dom d ⊆ ({["text"]} : gset string))
      then __init__ (default PNone (d !! "text"))
      else raise TypeError
  | _ => raise TypeError
  end.

Definition get_extra_save_data (self : positive) : M (gmap string pyval) :=
  do it <- deref self;
  match it with
  | Text t => ret {["text" := PStr (toPlainText t)]}
  | Pixmap _ => raise AttributeError
  end.

(** The double quote character. *)
Definition dquote : string := String (Ascii.ascii_of_nat 34) EmptyString.

(** [__str__]: the first 40 characters of the content, between double
    quotes. *)
Definition __str__ (self : positive) : M string :=
  do it <- deref self;
  match it with
  | Text t =>
      let txt := py_take 40 (toPlainText t) in
      ret (String.append "Text "
             (String.append dquote (String.append txt dquote)))
  | Pixmap _ => raise AttributeError
  end.

Definition create_copy (self : positive) : M positive :=
  do it <- deref self;
  match it with
  | Text t =>
      do item <- __init__ (PStr (toPlainText t));
      on_base (setPos (pos_x (tx_base t)) (pos_y (tx_base t))) item;;
      on_base (setZValue (zValue (tx_base t))) item;;
      on_base (setScale (scale (tx_base t))) item;;
      on_base (setRotation (rotation (tx_base t))) item;;
      (if Qeq_bool (flip (tx_base t)) (-1 # 1)
       then on_base do_flip item else ret tt);;
      ret item
  | Pixmap _ => raise AttributeError
  end.

Definition enter_edit_mode (self : positive) : M unit :=
  do it <- deref self;
  match it with
  | Text t =>
      store self
        (Text (MkTextObj (tx_base t) (tx_save_id t) (document t)
                 (is_editable t) true (textCursor t) TextEditorInteraction))
  | Pixmap _ => raise AttributeError
  end.

Definition exit_edit_mode (self : positive) : M unit :=
  do it <- deref self;
  match it with
  | Text t =>
      store self
        (Text (MkTextObj (tx_base t) (tx_save_id t) (document t)
                 (is_editable t) false new_QTextCursor NoTextInteraction))
  | Pixmap _ => raise AttributeError
  end.

(** [super().has_selection_handles() and not self.edit_mode]. *)
Definition has_selection_handles (self : positive) : M pyval :=
  do v <- BeeItemMixin.has_selection_handles self;
  if truthy v then
    do it <- deref self;
    match it with
    | Text t => ret (PBool (negb (edit_mode t)))
    | Pixmap _ => raise AttributeError
    end
  else ret v.

Section KeyPress.

(** The toolkit's own [keyPressEvent], which edits the document. *)
Variable super_keyPressEvent : positive -> QKeyEvent -> M QKeyEvent.

(** The value returned is the event object as the call leaves it. *)
Definition keyPressEvent (self : positive) (event : QKeyEvent) : M QKeyEvent :=
  if (Z.eqb (key event) Key_Enter || Z.eqb (key event) Key_Return)
     && Z.eqb (modifiers event) NoModifier
  then
    exit_edit_mode self;;
    do it <- deref self;
    do w <- get_world;
    match scene it w with
    | None => raise AttributeError
    | Some sc =>
        put_scene (set_edit_item None sc);;
        ret (accept event)
    end
  else super_keyPressEvent self event.

End KeyPress.

End BeeTextItem.

(** ** Method resolution *)

(** [item.has_selection_handles()]: the text item overrides the mixin. *)
Definition has_selection_handles (self : positive) : M pyval :=
  do it <- deref self;
  match it with
  | Pixmap _ => BeeItemMixin.has_selection_handles self
  | Text _ => BeeTextItem.has_selection_handles self
  end.

(** [item.create_copy()]. *)
Definition create_copy (self : positive) : M positive :=
  do it <- deref self;
  match it with
  | Pixmap _ => BeePixmapItem.create_copy self
  | Text _ => BeeTextItem.create_copy self
  end.

(** ** Reconstruction by the persistence layer *)

(** Modelled from the spec: the loader of the persistence layer is not part
    of the sources at hand.  It calls [create_from_data] with a type tag,
    which selects the class through the registry; an unsupported type tag
    fails with an [UnknownTypeError]. *)
Definition create_from_data (type_tag : string)
    (kwargs : gmap string pyval) : M pyval :=
  match item_registry !! type_tag with
  | Some BeePixmapItemCls => BeePixmapItem.create_from_data kwargs
  | Some BeeTextItemCls =>
      do r <- BeeTextItem.create_from_data kwargs; ret (PObj r)
  | None => raise (UnknownTypeError type_tag)
  end.

(** One persisted item: its type tag, the keywords for [create_from_data]
    and the common fields for [update_from_data]. *)
Record Row : Type := MkRow {
  row_type : string;
  row_create : gmap string pyval;
  row_common : gmap string pyval
}.

(** Modelled from the spec: per item, the persistence layer calls
    [create_from_data] and then [update_from_data] with the common
    fields. *)
Definition load_item (row : Row) : M pyval :=
  do item <- create_from_data (row_type row) (row_create row);
  match item with
  | PObj r => BeeItemMixin.update_from_data r (row_common row);; ret item
  | _ => raise AttributeError
  end.

(** Modelled from the spec: an error is fatal to the load of that single
    item and does not abort loading the rest of the document.  The outcome
    of every item is kept. *)
Fixpoint load_document (rows : list Row) (w : World) :
    World * list (result pyval) :=
  match rows with
  | [] => (w, [])
  | row :: rest =>
      let (w1, r) := load_item row w in
      let (w2, rs) := load_document rest w1 in
      (w2, r :: rs)
  end.

(** ** [safe_timer] of [beeref/__main__.py] *)

Module Main.

Section SafeTimer.

(** The state the callback works on. *)
Variable S : Type.

(** A pending single-shot timer whose callback is the closure [timer_event]
    of [safe_timer(timeout, func)]; the positional and keyword arguments of
    [func] are part of [shot_func]. *)
Record Shot : Type := MkShot {
  shot_timeout : Z;
  shot_func : S -> S * result unit
}.

(** [QTimer.singleShot(timeout, timer_event)].  The timeout is a C [int]:
    an integer outside its range is refused with an exception.  The toolkit
    arms no timer for a negative timeout; otherwise there is one more
    pending timer. *)
Definition singleShot (timeout : Z) (func : S -> S * result unit)
    (pending : list Shot) : list Shot * result unit :=
  if ((timeout <? - 2 ^ 31) || (2 ^ 31 <=? timeout))%Z
  then (pending, Raise OverflowError)
  else if (timeout <? 0)%Z then (pending, Ok tt)
  else ((pending ++ [MkShot timeout func])%list, Ok tt).

(** The closure [timer_event]: [func] runs, and the [finally] clause arms
    the next timer whether [func] returned or raised; an exception of
    [func] goes on to the caller afterwards, unless the [finally] clause
    raises itself. *)
Definition timer_event (timeout : Z) (func : S -> S * result unit)
    (st : S * list Shot) : (S * list Shot) * result unit :=
  let (s', r) := func (fst st) in
  let (pending, armed) := singleShot timeout func (snd st) in
  ((s', pending),
   match armed with
   | Ok _ => r
   | Raise e => Raise e
   end).

Definition safe_timer (timeout : Z) (func : S -> S * result unit)
    (st : S * list Shot) : (S * list Shot) * result unit :=
  let (pending, armed) := singleShot timeout func (snd st) in
  ((fst st, pending), armed).

(** The event loop fires the pending timer number [i]: a single-shot timer
    is gone once it fires, and its callback runs.  Firing a timer that is
    not there does nothing. *)
Definition fire (i : nat) (st : S * list Shot) : S * list Shot :=
  match snd st !! i with
  | Some shot =>
      fst (timer_event (shot_timeout shot) (shot_func shot)
             (fst st, delete i (snd st)))
  | None => st
  end.

(** The event loop fires timers one after the other. *)
Definition fire_all (fired : list nat) (st : S * list Shot) : S * list Shot :=
  foldl (fun acc i => fire i acc) st fired.

End SafeTimer.

End Main.

(** ** Auxiliary definitions for the statements *)

(** The text item the constructor builds for the content [s]. *)
Definition fresh_text (s : string) : Item :=
  Text (MkTextObj new_QGraphicsItem PNone s true false new_QTextCursor
          NoTextInteraction).

(** An image item with its file name replaced. *)
Definition with_filename (v : pyval) (p : PixmapObj) : Item :=
  Pixmap (MkPixmapObj (pm_base p) (pm_save_id p) v (pixmap p)).

(** The image item the constructor builds. *)
Definition fresh_pixmap (image : QImage) (filename : pyval) : Item :=
  Pixmap (MkPixmapObj new_QGraphicsItem PNone filename image).

(** Two items of one class whose type-specific content is equal: pixmap and
    file name for images, the plain text for text items. *)
Definition same_content (a b : Item) : Prop :=
  match a, b with
  | Pixmap p, Pixmap q => filename p = filename q /\ pixmap p = pixmap q
  | Text t, Text u => toPlainText t = toPlainText u
  | _, _ => False
  end.

(** Position, stacking value, scale, rotation and flip state are equal. *)
Definition same_geometry (g h : QGraphicsItem) : Prop :=
  pos_x g = pos_x h /\ pos_y g = pos_y h /\ zValue g = zValue h /\
  scale g = scale h /\ rotation g = rotation h /\ flipped g = flipped h.

(** A small document: a text note that is selected and has been emptied by
    the user, and an image, both in the scene. *)
Definition sample_scene : Scene := MkScene {[1%positive]} false None (1 # 1000).

Definition sample_text : TextObj :=
  MkTextObj (MkQGraphicsItem true true 3 4 5 2 90 true None) (PInt 7) ""
    true false new_QTextCursor NoTextInteraction.

Definition sample_note : TextObj :=
  MkTextObj (MkQGraphicsItem false true 0 0 1 1 0 false None) PNone "note"
    true true (MkQTextCursor 4 0) TextEditorInteraction.

Definition sample_pixmap : PixmapObj :=
  MkPixmapObj (MkQGraphicsItem false true 1 2 3 1 0 true None) (PInt 8)
    (PStr "bee.png") [Byte.x89; Byte.x50].

Definition sample_world : World :=
  MkWorld (<[1%positive := Text sample_text]>
             (<[2%positive := Pixmap sample_pixmap]>
                (<[3%positive := Text sample_note]> ∅)))
    sample_scene.

(** Keyword arguments as the persistence layer passes them. *)
Definition sample_kwargs : gmap string pyval :=
  <["item" := PObj 2%positive]>
    {["data" := PDict {["filename" := PStr "other.png"]}]}.

Definition blank_kwargs : gmap string pyval := {["item" := PObj 1%positive]}.

Definition blank_world : World :=
  MkWorld {[1%positive := fresh_pixmap [] PNone]} sample_scene.

(** The sample document with nothing selected. *)
Definition quiet_world : World :=
  MkWorld (heap sample_world) (MkScene ∅ false None (1 # 1000)).

(** A keyword, when given, holds a value that converts to a float. *)
Definition numeric (kwargs : gmap string pyval) (k : string) : Prop :=
  forall v, kwargs !! k = Some v -> is_Some (as_float v).

(** Keywords that move an item and give it an identifier. *)
Definition move_kwargs : gmap string pyval :=
  <["x" := PInt 10]> (<["save_id" := PInt 3]> (<["flip" := PInt (-1)]> ∅)).

(** Keywords with a position that is not a number. *)
Definition bad_kwargs : gmap string pyval :=
  <["x" := PInt 10]> (<["y" := PNone]> (<["save_id" := PInt 3]> ∅)).



(** The common fields of an item, as the keywords of [update_from_data]. *)
Definition own_data (it : Item) : gmap string pyval :=
  <["save_id" := save_id it]>
    (<["x" := PFloat (pos_x (base it))]>
       (<["y" := PFloat (pos_y (base it))]>
          (<["z" := PFloat (zValue (base it))]>
             (<["scale" := PFloat (scale (base it))]>
                (<["rotation" := PFloat (rotation (base it))]>
                   (<["flip" := PFloat (flip (base it))]> ∅)))))).

(** Strings with a carriage return and with a line feed in the middle. *)
Definition sample_cr : string :=
  String "a"%char (String CR (String "b"%char EmptyString)).

Definition sample_lf : string :=
  String "a"%char (String LF (String "b"%char EmptyString)).

(** * Properties *)

(** ** The plain text of a document *)

Lemma qt_plain_unfold (c : ascii) (s1 : string) :
  qt_plain (String c s1)
  = match head_rewrite (String c s1) with
    | Some (r, rest) => String r (qt_plain rest)
    | None => String c (qt_plain s1)
    end.
Proof.
  simpl. destruct (Ascii.eqb c CR).
  - destruct s1 as [| c1 s2]; [reflexivity |].
    destruct (Ascii.eqb c1 LF); reflexivity.
  - destruct s1 as [| c1 s2]; [reflexivity |].
    destruct (is_nbsp c c1); [reflexivity |].
    destruct s2 as [| c2 s3]; [reflexivity |].
    destruct (is_separator c c1 c2); reflexivity.
Qed.

Lemma head_rewrite_Some (s : string) (r : ascii) (rest : string) :
  head_rewrite s = Some (r, rest) ->
  (r = LF \/ r = SP) /\ String.length rest < String.length s.
Proof.
  destruct s as [| c s1]; [discriminate |]. simpl.
  destruct (Ascii.eqb c CR).
  - destruct s1 as [| c1 s2]; [intros [= <- <-]; simpl; split; [auto | lia] |].
    destruct (Ascii.eqb c1 LF); intros [= <- <-]; simpl; split; auto; lia.
  - destruct s1 as [| c1 s2]; [discriminate |].
    destruct (is_nbsp c c1); [intros [= <- <-]; simpl; split; auto; lia |].
    destruct s2 as [| c2 s3]; [discriminate |].
    destruct (is_separator c c1 c2); [| discriminate].
    intros [= <- <-]; simpl; split; auto; lia.
Qed.

(** A rewritten character is none that starts a rewritten sequence. *)
Lemma head_rewrite_fixed (r : ascii) (s : string) :
  r = LF \/ r = SP -> head_rewrite (String r s) = None.
Proof.
  intros [-> | ->]; simpl; destruct s as [| c1 s2]; try reflexivity;
    destruct s2; reflexivity.
Qed.

(** The first character of the plain text. *)
Lemma qt_plain_head (c : ascii) (s1 : string) :
  exists c' rest, qt_plain (String c s1) = String c' rest /\
    (c' = c \/ c' = LF \/ c' = SP).
Proof.
  rewrite qt_plain_unfold.
  destruct (head_rewrite (String c s1)) as [[r rest] |] eqn:H.
  - apply head_rewrite_Some in H as [[-> | ->] _]; eauto 6.
  - eauto.
Qed.

Lemma is_nbsp_second (c r : ascii) :
  r = LF \/ r = SP -> is_nbsp c r = false.
Proof. intros [-> | ->]; unfold is_nbsp; apply andb_false_r. Qed.

Lemma is_separator_second (c r c2 : ascii) :
  r = LF \/ r = SP -> is_separator c r c2 = false.
Proof.
  intros [-> | ->]; unfold is_separator; simpl;
    now rewrite !andb_false_r.
Qed.

Lemma is_separator_third (c c1 r : ascii) :
  r = LF \/ r = SP -> is_separator c c1 r = false.
Proof.
  intros [-> | ->]; unfold is_separator; simpl;
    now rewrite !andb_false_r.
Qed.

(** A character the document keeps is kept again when the rest of the
    string is replaced by its plain text. *)
Lemma head_rewrite_None_plain (c : ascii) (s1 : string) :
  head_rewrite (String c s1) = None ->
  head_rewrite (String c (qt_plain s1)) = None.
Proof.
  simpl. destruct (Ascii.eqb c CR) eqn:Hcr.
  { destruct s1 as [| c1 s2]; [discriminate |].
    destruct (Ascii.eqb c1 LF); discriminate. }
  destruct s1 as [| c1 s2]; [reflexivity |].
  destruct (is_nbsp c c1) eqn:Hn; [discriminate |].
  intros Hsep. rewrite qt_plain_unfold.
  destruct (head_rewrite (String c1 s2)) as [[r rest] |] eqn:Hh.
  - apply head_rewrite_Some in Hh as [Hr _].
    rewrite (is_nbsp_second c r Hr).
    destruct (qt_plain rest); [reflexivity |].
    now rewrite (is_separator_second c r _ Hr).
  - rewrite Hn. destruct s2 as [| c2 s3]; [reflexivity |].
    destruct (is_separator c c1 c2) eqn:Hs; [discriminate |].
    destruct (qt_plain_head c2 s3) as (c2' & rest & -> & [-> | Hr]).
    + now rewrite Hs.
    + now rewrite (is_separator_third c c1 c2' Hr).
Qed.

Lemma qt_plain_idem_aux (n : nat) (s : string) :
  String.length s <= n -> qt_plain (qt_plain s) = qt_plain s.
Proof.
  revert s. induction n as [| n IH]; intros [| c s1] Hlen;
    try reflexivity; simpl in Hlen; [lia |].
  rewrite (qt_plain_unfold c s1).
  destruct (head_rewrite (String c s1)) as [[r rest] |] eqn:Hh.
  - apply head_rewrite_Some in Hh as [Hr Hlt]. simpl in Hlt.
    rewrite qt_plain_unfold, (head_rewrite_fixed r _ Hr).
    rewrite IH by lia. reflexivity.
  - rewrite qt_plain_unfold, (head_rewrite_None_plain c s1 Hh).
    rewrite IH by lia. reflexivity.
Qed.

(** Reading the plain text of a document filled with a plain text gives
    that text again. *)
Lemma qt_plain_idem (s : string) : qt_plain (qt_plain s) = qt_plain s.
Proof. apply (qt_plain_idem_aux (String.length s)). lia. Qed.

Lemma qt_plain_empty (s : string) : qt_plain s = "" <-> s = "".
Proof.
  split; [| intros ->; reflexivity].
  destruct s as [| c s1]; [reflexivity |].
  destruct (qt_plain_head c s1) as (c' & rest & -> & _). discriminate.
Qed.

(** ** Running computations *)

Lemma deref_Some (r : positive) (it : Item) (w : World) :
  heap w !! r = Some it -> deref r w = (w, Ok it).
Proof. intros H. unfold deref. now rewrite H. Qed.

Lemma bind_Ok {A B} (c : M A) (k : A -> M B) (w w' : World) (a : A) :
  c w = (w', Ok a) -> bind c k w = k a w'.
Proof. intros H. unfold bind. now rewrite H. Qed.

Lemma bind_Raise {A B} (c : M A) (k : A -> M B) (w w' : World) (e : PyErr) :
  c w = (w', Raise e) -> bind c k w = (w', Raise e).
Proof. intros H. unfold bind. now rewrite H. Qed.

Lemma bind_deref {B} (r : positive) (it : Item) (k : Item -> M B) (w : World) :
  heap w !! r = Some it -> bind (deref r) k w = k it w.
Proof. intros H. apply bind_Ok, deref_Some, H. Qed.

Lemma bind_get_world {B} (k : World -> M B) (w : World) :
  bind get_world k w = k w w.
Proof. reflexivity. Qed.

Lemma alloc_fresh (w : World) :
  heap w !! fresh (dom (heap w)) = None.
Proof. apply not_elem_of_dom, is_fresh. Qed.

(** Writing twice to one reference keeps the last write. *)
Lemma store_store (r : positive) (a b : Item) (h : gmap positive Item) (sc : Scene) :
  store r b (MkWorld (<[r := a]> h) sc) = (MkWorld (<[r := b]> h) sc, Ok tt).
Proof. unfold store. simpl. now rewrite insert_insert_eq. Qed.

(** A setter applied to an object that was just written. *)
Lemma on_base_insert (f : QGraphicsItem -> QGraphicsItem) (r : positive)
    (a : Item) (h : gmap positive Item) (sc : Scene) :
  on_base f r (MkWorld (<[r := a]> h) sc)
  = (MkWorld (<[r := with_base (f (base a)) a]> h) sc, Ok tt).
Proof.
  unfold on_base. rewrite (bind_deref r a).
  - apply store_store.
  - simpl. apply lookup_insert_eq.
Qed.

(** ** [selection_action_items] *)

(** C7: for every item, [selection_action_items()] returns the one-element
    list holding the item itself, and leaves the store and the scene as they
    were. *)
Theorem selection_action_items_self (self : positive) (w : World) :
  BeeItemMixin.selection_action_items self w = (w, Ok [self]).
Proof. reflexivity. Qed.

(** ** The constructor of text items *)

Lemma text_init_str (s : string) (w : World) :
  s <> "" ->
  BeeTextItem.__init__ (PStr s) w
  = (MkWorld (<[fresh (dom (heap w)) := fresh_text s]> (heap w)) (the_scene w),
     Ok (fresh (dom (heap w)))).
Proof.
  intros Hs. unfold BeeTextItem.__init__, py_or. simpl.
  destruct (String.eqb_spec s ""); [contradiction | reflexivity].
Qed.

Lemma text_init_default (text : pyval) (w : World) :
  text = PNone \/ text = PStr "" ->
  BeeTextItem.__init__ text w
  = (MkWorld (<[fresh (dom (heap w)) := fresh_text "Text"]> (heap w))
       (the_scene w),
     Ok (fresh (dom (heap w)))).
Proof. intros [-> | ->]; reflexivity. Qed.

(** C9 as it is stated fails for a string with a carriage return: the
    document reads it back as a line feed, so the content is not the string
    that was passed. *)
Lemma text_init_content_counterexample :
  exists r t,
    snd (BeeTextItem.__init__ (PStr sample_cr) sample_world) = Ok r /\
    heap (fst (BeeTextItem.__init__ (PStr sample_cr) sample_world)) !! r
    = Some (Text t) /\
    sample_cr <> "" /\ toPlainText t = sample_lf /\ toPlainText t <> sample_cr.
Proof.
  exists 4%positive. eexists.
  split; [vm_compute; reflexivity |].
  split; [vm_compute; reflexivity |].
  split; [discriminate |].
  split; [reflexivity | discriminate].
Qed.

(** C9, amended: constructing a text item with [None] or with the empty
    string gives an item whose content is the string "Text".  A non-empty
    string fills the document, and the content is its plain text: carriage
    returns, paragraph and line separators and frame markers read back as
    line feeds and no-break spaces as spaces; only a non-empty string
    without any of these is stored as it is.  The constructor returns a new
    object in all these cases. *)
Theorem text_init_content (w : World) :
  (forall text, text = PNone \/ text = PStr "" ->
     exists r t w',
       BeeTextItem.__init__ text w = (w', Ok r) /\ heap w !! r = None /\
       heap w' !! r = Some (Text t) /\ toPlainText t = "Text") /\
  (forall s, s <> "" ->
     exists r t w',
       BeeTextItem.__init__ (PStr s) w = (w', Ok r) /\ heap w !! r = None /\
       heap w' !! r = Some (Text t) /\ toPlainText t = qt_plain s /\
       (qt_plain s = s -> toPlainText t = s)).
Proof.
  split.
  - intros text H. rewrite (text_init_default text w H).
    do 3 eexists. split; [reflexivity |].
    split; [apply alloc_fresh |].
    split; [apply lookup_insert_eq | reflexivity].
  - intros s Hs. rewrite (text_init_str s w Hs).
    do 3 eexists. split; [reflexivity |].
    split; [apply alloc_fresh |].
    split; [apply lookup_insert_eq |].
    split; [reflexivity | intros H; exact H].
Qed.

Lemma text_init_content_witness :
  (exists r t w',
     BeeTextItem.__init__ (PStr "") sample_world = (w', Ok r) /\
     heap sample_world !! r = None /\
     heap w' !! r = Some (Text t) /\ toPlainText t = "Text") /\
  (exists r t w',
     BeeTextItem.__init__ (PStr "note") sample_world = (w', Ok r) /\
     heap sample_world !! r = None /\
     heap w' !! r = Some (Text t) /\ toPlainText t = "note").
Proof.
  split.
  - apply (proj1 (text_init_content sample_world) (PStr "")).
    right. reflexivity.
  - destruct (proj2 (text_init_content sample_world) "note")
      as (r & t & w' & Hrun & Hnew & Hl & _ & Hsame); [discriminate |].
    exists r, t, w'. repeat split; try assumption.
    apply Hsame. reflexivity.
Defined.

(** ** [has_selection_handles] *)

Lemma mixin_has_selection_handles_run (self : positive) (it : Item) (w : World) :
  heap w !! self = Some it ->
  BeeItemMixin.has_selection_handles self w
  = (w, Ok (if isSelected (base it)
            then if in_scene (base it)
                 then PBool (has_single_selection (the_scene w))
                 else PNone
            else PBool false)).
Proof.
  intros H. unfold BeeItemMixin.has_selection_handles.
  rewrite (bind_deref self it) by exact H. rewrite bind_get_world.
  unfold scene. destruct (isSelected (base it)), (in_scene (base it));
    reflexivity.
Qed.

Lemma text_has_selection_handles_run (self : positive) (t : TextObj) (w : World) :
  heap w !! self = Some (Text t) ->
  BeeTextItem.has_selection_handles self w
  = (w, Ok (if isSelected (tx_base t) && in_scene (tx_base t)
               && has_single_selection (the_scene w)
            then PBool (negb (edit_mode t))
            else if isSelected (tx_base t) && negb (in_scene (tx_base t))
                 then PNone else PBool false)).
Proof.
  intros H. unfold BeeTextItem.has_selection_handles.
  rewrite (bind_Ok _ _ _ _ _ (mixin_has_selection_handles_run self _ w H)).
  simpl.
  destruct (isSelected (tx_base t)), (in_scene (tx_base t)),
    (has_single_selection (the_scene w)); simpl;
    try reflexivity; now rewrite (bind_deref self (Text t)) by exact H.
Qed.

Lemma enter_edit_mode_run (self : positive) (t : TextObj) (w : World) :
  heap w !! self = Some (Text t) ->
  BeeTextItem.enter_edit_mode self w
  = (MkWorld
       (<[self := Text (MkTextObj (tx_base t) (tx_save_id t) (document t)
                          (is_editable t) true (textCursor t)
                          TextEditorInteraction)]> (heap w))
       (the_scene w),
     Ok tt).
Proof.
  intros H. unfold BeeTextItem.enter_edit_mode.
  now rewrite (bind_deref self (Text t)) by exact H.
Qed.

(** C1: [has_selection_handles()] returns a true value if and only if the
    item is selected, is in a scene, the scene reports a single selection
    and, for a text item, the item is not in edit mode.  With no or with
    several items selected the value is false ([False], or [None] for an item
    outside a scene); and for a text item with handles the value is false
    after [enter_edit_mode()]. *)
Theorem has_selection_handles_iff (self : positive) (it : Item) (w : World) :
  heap w !! self = Some it ->
  exists v,
    has_selection_handles self w = (w, Ok v) /\
    (truthy v = true <->
       isSelected (base it) = true /\ in_scene (base it) = true /\
       size (selectedItems (the_scene w)) = 1 /\
       (forall t, it = Text t -> edit_mode t = false)) /\
    (size (selectedItems (the_scene w)) <> 1 -> truthy v = false) /\
    (forall t, it = Text t -> truthy v = true ->
       exists w' v',
         BeeTextItem.enter_edit_mode self w = (w', Ok tt) /\
         has_selection_handles self w' = (w', Ok v') /\
         truthy v' = false).
Proof.
  intros H. unfold has_selection_handles at 1.
  rewrite (bind_deref self it) by exact H.
  destruct it as [p | t].
  - rewrite (mixin_has_selection_handles_run self _ w H). simpl.
    eexists. split; [reflexivity |].
    unfold has_single_selection.
    destruct (isSelected (pm_base p)), (in_scene (pm_base p)); simpl;
      repeat split; try discriminate; try tauto;
      try (intros Hs; apply Nat.eqb_eq in Hs; tauto);
      try (intros; apply Nat.eqb_eq; tauto);
      try (intros Hs; apply Nat.eqb_neq; exact Hs).
  - rewrite (text_has_selection_handles_run self t w H). simpl.
    eexists. split; [reflexivity |].
    unfold has_single_selection.
    destruct (isSelected (tx_base t)) eqn:Hsel,
      (in_scene (tx_base t)) eqn:Hin; simpl;
      try (repeat split; try discriminate; try tauto;
           intros; discriminate).
    destruct (Nat.eqb_spec (size (selectedItems (the_scene w))) 1) as [Hs | Hs];
      simpl.
    + split; [| split].
      * split.
        -- intros Hv. repeat split; try assumption.
           intros t' [= <-]. now apply negb_true_iff.
        -- intros (_ & _ & _ & He). apply negb_true_iff. now apply He.
      * intros Hn. contradiction.
      * intros t' [= <-] Hv.
        rewrite (enter_edit_mode_run self t w H).
        do 2 eexists. split; [reflexivity |].
        unfold has_selection_handles.
        erewrite bind_deref by (simpl; apply lookup_insert_eq).
        cbv beta iota.
        erewrite text_has_selection_handles_run
          by (simpl; apply lookup_insert_eq).
        simpl. rewrite Hsel, Hin. unfold has_single_selection. simpl.
        rewrite Hs. simpl. split; reflexivity.
    + split; [| split].
      * split; [discriminate | tauto].
      * reflexivity.
      * intros t' _ Hv. discriminate.
Qed.

Lemma has_selection_handles_iff_witness :
  heap sample_world !! 1%positive = Some (Text sample_text) /\
  exists v,
    has_selection_handles 1%positive sample_world = (sample_world, Ok v) /\
    truthy v = true.
Proof.
  split; [reflexivity |].
  destruct (has_selection_handles_iff 1%positive (Text sample_text)
              sample_world eq_refl) as (v & Hrun & Hiff & _).
  exists v. split; [exact Hrun |].
  apply Hiff. repeat split; try reflexivity.
  intros t [= <-]. reflexivity.
Defined.

(** ** The edit mode of text items *)

(** The text item [exit_edit_mode()] leaves behind. *)
Lemma exit_edit_mode_run (self : positive) (t : TextObj) (w : World) :
  heap w !! self = Some (Text t) ->
  BeeTextItem.exit_edit_mode self w
  = (MkWorld
       (<[self := Text (MkTextObj (tx_base t) (tx_save_id t) (document t)
                          (is_editable t) false new_QTextCursor
                          NoTextInteraction)]> (heap w))
       (the_scene w),
     Ok tt).
Proof.
  intros H. unfold BeeTextItem.exit_edit_mode.
  now rewrite (bind_deref self (Text t)) by exact H.
Qed.

Lemma keyPressEvent_enter_run
    (super : positive -> QKeyEvent -> M QKeyEvent)
    (self : positive) (t : TextObj) (event : QKeyEvent) (w : World) :
  heap w !! self = Some (Text t) ->
  key event = Key_Enter \/ key event = Key_Return ->
  modifiers event = NoModifier ->
  BeeTextItem.keyPressEvent super self event w
  = let h := <[self := Text (MkTextObj (tx_base t) (tx_save_id t)
                               (document t) (is_editable t) false
                               new_QTextCursor NoTextInteraction)]> (heap w) in
    if in_scene (tx_base t)
    then (MkWorld h (set_edit_item None (the_scene w)), Ok (accept event))
    else (MkWorld h (the_scene w), Raise AttributeError).
Proof.
  intros H Hk Hm. unfold BeeTextItem.keyPressEvent.
  replace ((key event =? Key_Enter)%Z || (key event =? Key_Return)%Z) with true
    by (destruct Hk as [-> | ->]; reflexivity).
  rewrite Hm. simpl.
  rewrite (bind_Ok _ _ _ _ _ (exit_edit_mode_run self t w H)).
  erewrite bind_deref by (simpl; apply lookup_insert_eq).
  rewrite bind_get_world. unfold scene. simpl.
  destruct (in_scene (tx_base t)); reflexivity.
Qed.

(** C5: the edit mode of a text item.  [enter_edit_mode()] puts the item in
    the editing state.  [exit_edit_mode()] puts it in the not-editing state,
    with a new cursor at the start of the document and text interaction
    switched off, and so does a key press of Enter or Return without
    modifier; for an item in a scene that key press also clears the scene's
    edited item and accepts the event. *)
Theorem edit_mode_state_machine
    (super : positive -> QKeyEvent -> M QKeyEvent)
    (self : positive) (t : TextObj) (w : World) :
  heap w !! self = Some (Text t) ->
  (exists t',
     heap (fst (BeeTextItem.enter_edit_mode self w)) !! self = Some (Text t') /\
     snd (BeeTextItem.enter_edit_mode self w) = Ok tt /\
     edit_mode t' = true) /\
  (exists t',
     heap (fst (BeeTextItem.exit_edit_mode self w)) !! self = Some (Text t') /\
     snd (BeeTextItem.exit_edit_mode self w) = Ok tt /\
     edit_mode t' = false /\ textCursor t' = new_QTextCursor /\
     textInteractionFlags t' = NoTextInteraction /\
     toPlainText t' = toPlainText t) /\
  (forall event,
     key event = Key_Enter \/ key event = Key_Return ->
     modifiers event = NoModifier ->
     heap (fst (BeeTextItem.keyPressEvent super self event w))
     = heap (fst (BeeTextItem.exit_edit_mode self w)) /\
     (in_scene (tx_base t) = true ->
      snd (BeeTextItem.keyPressEvent super self event w) = Ok (accept event) /\
      edit_item (the_scene (fst (BeeTextItem.keyPressEvent super self event w)))
      = None)).
Proof.
  intros H. split; [| split].
  - rewrite (enter_edit_mode_run self t w H). simpl.
    eexists. split; [apply lookup_insert_eq |]. split; reflexivity.
  - rewrite (exit_edit_mode_run self t w H). simpl.
    eexists. split; [apply lookup_insert_eq |]. repeat split.
  - intros event Hk Hm.
    rewrite (keyPressEvent_enter_run super self t event w H Hk Hm).
    rewrite (exit_edit_mode_run self t w H). simpl.
    split.
    + destruct (in_scene (tx_base t)); reflexivity.
    + intros ->. split; reflexivity.
Qed.

(** After [enter_edit_mode()], both ways out lead back to the not-editing
    state. *)
Lemma edit_mode_state_machine_witness :
  let w1 := fst (BeeTextItem.enter_edit_mode 1%positive sample_world) in
  let ev := MkQKeyEvent Key_Return NoModifier false in
  (exists t',
     heap (fst (BeeTextItem.exit_edit_mode 1%positive w1)) !! 1%positive
     = Some (Text t') /\ edit_mode t' = false) /\
  heap (fst (BeeTextItem.keyPressEvent (fun _ e => ret e) 1%positive ev w1))
  = heap (fst (BeeTextItem.exit_edit_mode 1%positive w1)).
Proof.
  intros w1 ev.
  destruct (edit_mode_state_machine (fun _ e => ret e) 1%positive
              (MkTextObj (tx_base sample_text) (tx_save_id sample_text)
                 (document sample_text) (is_editable sample_text) true
                 (textCursor sample_text) TextEditorInteraction)
              w1 eq_refl) as (_ & (t' & Ht' & _ & He & _) & Hkey).
  split.
  - exists t'. split; [exact Ht' | exact He].
  - apply (Hkey ev); [right; reflexivity | reflexivity].
Defined.

(** ** [BeePixmapItem.create_from_data] *)

(** An item with a true file name keeps it, whatever the payload is. *)
Lemma pixmap_create_from_data_keep (kwargs : gmap string pyval)
    (r : positive) (p : PixmapObj) (w : World) :
  kwargs !! "item" = Some (PObj r) ->
  heap w !! r = Some (Pixmap p) ->
  truthy (filename p) = true ->
  BeePixmapItem.create_from_data kwargs w
  = (MkWorld (<[r := with_filename (filename p) p]> (heap w)) (the_scene w),
     Ok (PObj r)).
Proof.
  intros Hi Hr Ht. unfold BeePixmapItem.create_from_data. rewrite Hi.
  unfold BeePixmapItem.get_filename, BeePixmapItem.set_filename.
  unfold bind, deref, ret. rewrite Hr, Ht, Hr. reflexivity.
Qed.

(** An item with a false file name takes what the payload holds. *)
Lemma pixmap_create_from_data_fallback (kwargs : gmap string pyval)
    (r : positive) (p : PixmapObj) (d : gmap string pyval) (w : World) :
  kwargs !! "item" = Some (PObj r) ->
  heap w !! r = Some (Pixmap p) ->
  truthy (filename p) = false ->
  default (PDict ∅) (kwargs !! "data") = PDict d ->
  BeePixmapItem.create_from_data kwargs w
  = (MkWorld (<[r := with_filename (default PNone (d !! "filename")) p]> (heap w))
       (the_scene w),
     Ok (PObj r)).
Proof.
  intros Hi Hr Ht Hd. unfold BeePixmapItem.create_from_data. rewrite Hi, Hd.
  unfold BeePixmapItem.get_filename, BeePixmapItem.set_filename,
    BeePixmapItem.data_get_filename.
  unfold bind, deref, ret. rewrite Hr, Ht, Hr. reflexivity.
Qed.

(** C6 as it is stated fails for an item whose file name is the empty string:
    that file name is not null, yet the payload's file name replaces it. *)
Lemma pixmap_filename_counterexample :
  let p := MkPixmapObj new_QGraphicsItem PNone (PStr "") [] in
  let w := MkWorld {[1%positive := Pixmap p]} sample_scene in
  let kwargs : gmap string pyval :=
    <["item" := PObj 1%positive]>
      {["data" := PDict {["filename" := PStr "a.png"]}]} in
  filename p <> PNone /\
  exists p',
    heap (fst (BeePixmapItem.create_from_data kwargs w)) !! 1%positive
    = Some (Pixmap p') /\
    filename p' = PStr "a.png" /\ filename p' <> filename p.
Proof.
  intros p w kwargs. split; [discriminate |].
  eexists. split; [vm_compute; reflexivity |].
  split; [reflexivity | discriminate].
Qed.

(** C6, amended: [create_from_data] of image items uses the payload's file
    name as a fallback.  An item whose file name is a non-empty string keeps
    it and the payload is ignored; an item whose file name is null or the
    empty string gets the payload's file name, null when the payload has
    none. *)
Theorem pixmap_filename_fallback (kwargs : gmap string pyval)
    (r : positive) (p : PixmapObj) (w : World) :
  kwargs !! "item" = Some (PObj r) ->
  heap w !! r = Some (Pixmap p) ->
  (forall s, filename p = PStr s -> s <> "" ->
     BeePixmapItem.create_from_data kwargs w
     = (MkWorld (<[r := with_filename (PStr s) p]> (heap w)) (the_scene w),
        Ok (PObj r))) /\
  (forall d, filename p = PNone \/ filename p = PStr "" ->
     default (PDict ∅) (kwargs !! "data") = PDict d ->
     BeePixmapItem.create_from_data kwargs w
     = (MkWorld (<[r := with_filename (default PNone (d !! "filename")) p]>
                   (heap w)) (the_scene w),
        Ok (PObj r))).
Proof.
  intros Hi Hr. split.
  - intros s Hf Hs. rewrite <- Hf.
    apply pixmap_create_from_data_keep; [exact Hi | exact Hr |].
    rewrite Hf. simpl. destruct (String.eqb_spec s ""); [contradiction | reflexivity].
  - intros d Hf Hd.
    apply pixmap_create_from_data_fallback; [exact Hi | exact Hr | | exact Hd].
    destruct Hf as [-> | ->]; reflexivity.
Qed.

Lemma pixmap_filename_fallback_witness :
  BeePixmapItem.create_from_data sample_kwargs sample_world
  = (MkWorld (<[2%positive := with_filename (PStr "bee.png") sample_pixmap]>
                (heap sample_world)) (the_scene sample_world),
     Ok (PObj 2%positive)) /\
  BeePixmapItem.create_from_data blank_kwargs blank_world
  = (MkWorld
       (<[1%positive :=
            with_filename (default PNone ((∅ : gmap string pyval) !! "filename"))
              (MkPixmapObj new_QGraphicsItem PNone PNone [])]>
          (heap blank_world))
       (the_scene blank_world),
     Ok (PObj 1%positive)).
Proof.
  assert (H2 : sample_kwargs !! "item" = Some (PObj 2%positive))
    by (vm_compute; reflexivity).
  assert (H1 : blank_kwargs !! "item" = Some (PObj 1%positive))
    by (vm_compute; reflexivity).
  split.
  - apply (proj1 (pixmap_filename_fallback sample_kwargs 2%positive
                    sample_pixmap sample_world H2 eq_refl) "bee.png");
      [reflexivity | discriminate].
  - apply (proj2 (pixmap_filename_fallback blank_kwargs 1%positive
                    (MkPixmapObj new_QGraphicsItem PNone PNone [])
                    blank_world H1 eq_refl) ∅);
      [left; reflexivity | vm_compute; reflexivity].
Defined.

(** ** [on_selected_change] *)

Section Stacking.

Lemma foldr_Qmax_ge (l : list Q) (x : Q) :
  x ∈ l -> (x <= foldr Qmax 0%Q l)%Q.
Proof.
  induction l as [| y l IH]; intros Hx.
  - inversion Hx.
  - apply elem_of_cons in Hx as [-> | Hx]; simpl.
    + apply Q.le_max_l.
    + eapply Qle_trans; [apply IH, Hx | apply Q.le_max_r].
Qed.

(** No item of the scene lies above [max_z]. *)
Lemma zValue_le_max_z (w : World) (r : positive) (it : Item) :
  heap w !! r = Some it -> in_scene (base it) = true ->
  (zValue (base it) <= BeeItemMixin.max_z w)%Q.
Proof.
  intros Hr Hin. apply foldr_Qmax_ge.
  apply (list_elem_of_fmap_2' (zValue ∘ base) _ it); [| reflexivity].
  apply list_elem_of_filter. split; [exact Hin |].
  apply (list_elem_of_fmap_2' snd _ (r, it)); [| reflexivity].
  apply elem_of_map_to_list, Hr.
Qed.

Lemma bring_to_front_run (self : positive) (it : Item) (w : World) :
  heap w !! self = Some it -> in_scene (base it) = true ->
  BeeItemMixin.bring_to_front self w
  = (MkWorld
       (<[self := with_base
                    (setZValue (BeeItemMixin.max_z w + Z_STEP (the_scene w))%Q
                       (base it)) it]> (heap w))
       (the_scene w),
     Ok tt).
Proof.
  intros Hr Hin. unfold BeeItemMixin.bring_to_front.
  rewrite (bind_deref self it) by exact Hr. rewrite bind_get_world.
  unfold scene. rewrite Hin. reflexivity.
Qed.

Lemma base_with_base (g : QGraphicsItem) (it : Item) :
  base (with_base g it) = g.
Proof. destruct it; reflexivity. Qed.

Lemma has_selection_false (sc : Scene) :
  has_selection sc = false <-> forall r, r ∉ selectedItems sc.
Proof.
  unfold has_selection. rewrite negb_false_iff, Nat.eqb_eq, size_empty_iff.
  set_solver.
Qed.

End Stacking.

Lemma on_selected_change_run (self : positive) (it : Item) (value : pyval)
    (w : World) :
  heap w !! self = Some it ->
  BeeItemMixin.on_selected_change self value w
  = if truthy value && in_scene (base it)
       && negb (has_selection (the_scene w))
       && negb (rubberband_active (the_scene w))
    then BeeItemMixin.bring_to_front self w
    else (w, Ok tt).
Proof.
  intros Hr. unfold BeeItemMixin.on_selected_change.
  rewrite (bind_deref self it) by exact Hr. rewrite bind_get_world.
  unfold scene.
  destruct (truthy value), (in_scene (base it)),
    (has_selection (the_scene w)), (rubberband_active (the_scene w));
    reflexivity.
Qed.

(** C4: [on_selected_change(value)], called as the selection flag of the
    item flips, calls [bring_to_front] exactly when the value is true, the
    item is in a scene, nothing else is selected in the scene and no
    rubber-band selection is active; the item then lies above every item of
    the scene.  In every other case nothing changes. *)
Theorem on_selected_change_front (self : positive) (it : Item) (value : pyval)
    (w : World) :
  heap w !! self = Some it ->
  (truthy value = true -> self ∉ selectedItems (the_scene w)) ->
  (0 < Z_STEP (the_scene w))%Q ->
  let front :=
    truthy value = true /\ in_scene (base it) = true /\
    (forall r, r ∈ selectedItems (the_scene w) -> r = self) /\
    rubberband_active (the_scene w) = false in
  (front ->
     BeeItemMixin.on_selected_change self value w
     = BeeItemMixin.bring_to_front self w /\
     BeeItemMixin.bring_to_front self w <> (w, Ok tt) /\
     exists it',
       heap (fst (BeeItemMixin.on_selected_change self value w)) !! self
       = Some it' /\
       forall r o, heap w !! r = Some o -> in_scene (base o) = true ->
                   (zValue (base o) < zValue (base it'))%Q) /\
  (~ front -> BeeItemMixin.on_selected_change self value w = (w, Ok tt)).
Proof.
  intros Hr Hflip Hstep front.
  rewrite (on_selected_change_run self it value w Hr).
  split.
  - intros (Hv & Hin & Hsel & Hrb).
    assert (Hnone : has_selection (the_scene w) = false).
    { apply has_selection_false. intros r Hel.
      apply (Hflip Hv). now rewrite <- (Hsel r Hel). }
    rewrite Hv, Hin, Hnone, Hrb. simpl.
    rewrite (bring_to_front_run self it w Hr Hin).
    split; [reflexivity |]. split.
    + intros Heq. injection Heq as Heq.
      assert (Hl : heap w !! self
                   = Some (with_base
                             (setZValue
                                (BeeItemMixin.max_z w + Z_STEP (the_scene w))%Q
                                (base it)) it)).
      { rewrite <- Heq at 1. simpl. apply lookup_insert_eq. }
      rewrite Hr in Hl. injection Hl as Hl.
      pose proof (zValue_le_max_z w self it Hr Hin) as Hle.
      rewrite Hl, base_with_base in Hle. simpl in Hle. lra.
    + eexists. split; [simpl; apply lookup_insert_eq |].
      intros r o Ho Hoin. rewrite base_with_base. simpl.
      pose proof (zValue_le_max_z w r o Ho Hoin). lra.
  - intros Hn.
    destruct (truthy value) eqn:Hv; [| reflexivity].
    destruct (in_scene (base it)) eqn:Hin; [| reflexivity].
    destruct (has_selection (the_scene w)) eqn:Hsel; [reflexivity |].
    destruct (rubberband_active (the_scene w)) eqn:Hrb; [reflexivity |].
    exfalso. apply Hn. repeat split; try reflexivity.
    intros r Hel. now apply has_selection_false in Hel.
Qed.

Lemma on_selected_change_front_witness :
  BeeItemMixin.on_selected_change 2%positive (PBool true) quiet_world
  = BeeItemMixin.bring_to_front 2%positive quiet_world /\
  BeeItemMixin.on_selected_change 3%positive (PBool true) sample_world
  = (sample_world, Ok tt).
Proof.
  split.
  - apply (on_selected_change_front 2%positive (Pixmap sample_pixmap)
             (PBool true) quiet_world eq_refl).
    + intros _. apply not_elem_of_empty.
    + reflexivity.
    + repeat split. intros r Hel. now apply not_elem_of_empty in Hel.
  - apply (on_selected_change_front 3%positive (Text sample_note)
             (PBool true) sample_world eq_refl).
    + intros _ Hel.
      change (3%positive ∈ ({[1%positive]} : gset positive)) in Hel.
      apply elem_of_singleton in Hel. discriminate.
    + reflexivity.
    + intros (_ & _ & Hsel & _).
      assert (Hel : 1%positive ∈ selectedItems (the_scene sample_world)).
      { change (1%positive ∈ ({[1%positive]} : gset positive)).
        apply elem_of_singleton. reflexivity. }
      specialize (Hsel 1%positive Hel). discriminate.
Defined.

(** ** [update_from_data] *)

Section UpdateFromData.

Variables (self : positive) (h : gmap positive Item) (sc : Scene).

Lemma bind_deref_insert {B} (a : Item) (k : Item -> M B) :
  bind (deref self) k (MkWorld (<[self := a]> h) sc)
  = k a (MkWorld (<[self := a]> h) sc).
Proof. apply bind_deref. simpl. apply lookup_insert_eq. Qed.

Lemma bind_qt_set_insert {B} (f : Q -> QGraphicsItem -> QGraphicsItem)
    (v : pyval) (a : Item) (k : unit -> M B) :
  bind (BeeItemMixin.qt_set f self v) k (MkWorld (<[self := a]> h) sc)
  = match as_float v with
    | Some q => k tt (MkWorld (<[self := with_base (f q (base a)) a]> h) sc)
    | None => (MkWorld (<[self := a]> h) sc, Raise TypeError)
    end.
Proof.
  unfold BeeItemMixin.qt_set. destruct (as_float v); [| reflexivity].
  unfold bind at 1. rewrite bind_deref_insert. now rewrite store_store.
Qed.

Lemma bind_qt_setPos_insert {B} (x y : pyval) (a : Item) (k : unit -> M B) :
  bind (BeeItemMixin.qt_setPos self x y) k (MkWorld (<[self := a]> h) sc)
  = match as_float x, as_float y with
    | Some x', Some y' =>
        k tt (MkWorld (<[self := with_base (setPos x' y' (base a)) a]> h) sc)
    | _, _ => (MkWorld (<[self := a]> h) sc, Raise TypeError)
    end.
Proof.
  unfold BeeItemMixin.qt_setPos.
  destruct (as_float x); [| reflexivity].
  destruct (as_float y); [| reflexivity].
  unfold bind at 1. rewrite bind_deref_insert. now rewrite store_store.
Qed.

End UpdateFromData.

Lemma kwargs_get_None (kwargs : gmap string pyval) (k : string) (d : pyval) :
  kwargs !! k = None -> BeeItemMixin.kwargs_get kwargs k d = d.
Proof. intros H. unfold BeeItemMixin.kwargs_get. now rewrite H. Qed.

Lemma kwargs_get_numeric (kwargs : gmap string pyval) (k : string) (q : Q) :
  numeric kwargs k ->
  is_Some (as_float (BeeItemMixin.kwargs_get kwargs k (PFloat q))).
Proof.
  intros Hn. unfold BeeItemMixin.kwargs_get.
  destruct (kwargs !! k) as [v |] eqn:Hk; simpl; [now apply Hn | eauto].
Qed.

Lemma base_with_save_id (v : pyval) (it : Item) :
  base (with_save_id v it) = base it.
Proof. destruct it; reflexivity. Qed.

Lemma save_id_with_base (g : QGraphicsItem) (it : Item) :
  save_id (with_base g it) = save_id it.
Proof. destruct it; reflexivity. Qed.

Lemma save_id_with_save_id (v : pyval) (it : Item) :
  save_id (with_save_id v it) = v.
Proof. destruct it; reflexivity. Qed.

Lemma class_of_with_base (g : QGraphicsItem) (it : Item) :
  class_of (with_base g it) = class_of it.
Proof. destruct it; reflexivity. Qed.

Lemma with_base_with_base (g g' : QGraphicsItem) (it : Item) :
  with_base g (with_base g' it) = with_base g it.
Proof. destruct it; reflexivity. Qed.

Create Rewrite HintDb item_simpl.
#[local] Hint Rewrite base_with_base base_with_save_id save_id_with_base
  save_id_with_save_id class_of_with_base with_base_with_base : item_simpl.

Lemma bind_store {B} (r : positive) (it : Item) (k : unit -> M B) (w : World) :
  bind (store r it) k w = k tt (MkWorld (<[r := it]> (heap w)) (the_scene w)).
Proof. reflexivity. Qed.

Ltac step_update :=
  repeat first
    [ rewrite bind_deref_insert
    | rewrite bind_qt_setPos_insert
    | rewrite bind_qt_set_insert
    | match goal with
      | |- context [match as_float ?v with _ => _ end] =>
          let E := fresh "E" in destruct (as_float v) eqn:E
      end ].

(** C8: in [update_from_data], each of [save_id], [x], [y], [z], [scale] and
    [rotation] that is absent from the keywords leaves its property as it
    was.  An absent [flip] counts as [flip = 1]: when the call goes through,
    which it does when every given [x], [y], [z], [scale] and [rotation]
    converts to a float, the item ends up not flipped, so an item whose flip
    state is [-1] is flipped back. *)
Theorem update_from_data_frame (self : positive) (it : Item)
    (kwargs : gmap string pyval) (w : World) :
  heap w !! self = Some it ->
  exists it',
    heap (fst (BeeItemMixin.update_from_data self kwargs w)) !! self = Some it' /\
    (kwargs !! "save_id" = None -> save_id it' = save_id it) /\
    (kwargs !! "x" = None -> pos_x (base it') = pos_x (base it)) /\
    (kwargs !! "y" = None -> pos_y (base it') = pos_y (base it)) /\
    (kwargs !! "z" = None -> zValue (base it') = zValue (base it)) /\
    (kwargs !! "scale" = None -> scale (base it') = scale (base it)) /\
    (kwargs !! "rotation" = None -> rotation (base it') = rotation (base it)) /\
    (kwargs !! "flip" = None ->
     numeric kwargs "x" -> numeric kwargs "y" -> numeric kwargs "z" ->
     numeric kwargs "scale" -> numeric kwargs "rotation" ->
     snd (BeeItemMixin.update_from_data self kwargs w) = Ok tt /\
     flipped (base it') = false).
Proof.
  intros Hr. unfold BeeItemMixin.update_from_data.
  rewrite (bind_deref self it) by exact Hr. rewrite bind_store.
  step_update.
  all: autorewrite with item_simpl in *.
  all: unfold flip, do_flip, setRotation, setScale, setZValue, setPos in *;
    simpl in *.
  all: try match goal with
       | |- context [if negb ?c then _ else _] =>
           let Hc := fresh "Hc" in destruct c eqn:Hc; simpl
       end.
  all: eexists; (split; [apply lookup_insert_eq |]).
  all: autorewrite with item_simpl; simpl.
  all: repeat split; intros.
  all: try match goal with
       | H : ?kw !! ?k = None |- _ =>
           rewrite ?(kwargs_get_None kw k _ H) in *
       end.
  all: simpl in *; simplify_eq; try reflexivity.
  all: try (destruct (flipped (base it)); vm_compute in Hc; simpl; congruence).
  all: match goal with
       | E : as_float (BeeItemMixin.kwargs_get ?kw ?k (PFloat ?q)) = None,
         Hn : numeric ?kw ?k |- _ =>
           destruct (kwargs_get_numeric kw k q Hn) as [? ?]; congruence
       end.
Qed.

Lemma update_from_data_frame_witness :
  exists it',
    heap (fst (BeeItemMixin.update_from_data 1%positive ∅ sample_world))
    !! 1%positive = Some it' /\
    save_id it' = PInt 7 /\
    snd (BeeItemMixin.update_from_data 1%positive ∅ sample_world) = Ok tt /\
    flipped (base it') = false.
Proof.
  assert (Hnum : forall k, numeric ∅ k).
  { intros k v Hv. rewrite lookup_empty in Hv. discriminate. }
  destruct (update_from_data_frame 1%positive (Text sample_text) ∅
              sample_world eq_refl)
    as (it' & Hl & Hs & _ & _ & _ & _ & _ & Hf).
  exists it'. split; [exact Hl |].
  split; [apply Hs, lookup_empty |].
  apply Hf; [apply lookup_empty | apply Hnum ..].
Defined.

(** ** [create_copy] *)

Lemma bind_on_base_insert {B} (f : QGraphicsItem -> QGraphicsItem)
    (r : positive) (a : Item) (h : gmap positive Item) (sc : Scene)
    (k : unit -> M B) :
  bind (on_base f r) k (MkWorld (<[r := a]> h) sc)
  = k tt (MkWorld (<[r := with_base (f (base a)) a]> h) sc).
Proof. unfold bind at 1. now rewrite on_base_insert. Qed.

Lemma pixmap_create_copy_run (self : positive) (p : PixmapObj) (w : World) :
  heap w !! self = Some (Pixmap p) ->
  BeePixmapItem.create_copy self w
  = (MkWorld
       (<[fresh (dom (heap w)) :=
            Pixmap (MkPixmapObj
                      (MkQGraphicsItem false false (pos_x (pm_base p))
                         (pos_y (pm_base p)) (zValue (pm_base p))
                         (scale (pm_base p)) (rotation (pm_base p))
                         (flipped (pm_base p)) None)
                      PNone (filename p) (pixmap p))]> (heap w))
       (the_scene w),
     Ok (fresh (dom (heap w)))).
Proof.
  intros Hr. unfold BeePixmapItem.create_copy.
  rewrite (bind_deref self (Pixmap p)) by exact Hr.
  unfold BeePixmapItem.__init__. unfold bind at 1. unfold alloc.
  unfold BeePixmapItem.setPixmap. unfold bind at 1.
  rewrite bind_deref_insert. rewrite store_store.
  rewrite !bind_on_base_insert. unfold flip.
  destruct (flipped (pm_base p)); simpl.
  - rewrite bind_on_base_insert. reflexivity.
  - reflexivity.
Qed.

Lemma text_create_copy_run (self : positive) (t : TextObj) (w : World) :
  heap w !! self = Some (Text t) ->
  toPlainText t <> "" ->
  BeeTextItem.create_copy self w
  = (MkWorld
       (<[fresh (dom (heap w)) :=
            Text (MkTextObj
                    (MkQGraphicsItem false false (pos_x (tx_base t))
                       (pos_y (tx_base t)) (zValue (tx_base t))
                       (scale (tx_base t)) (rotation (tx_base t))
                       (flipped (tx_base t)) None)
                    PNone (toPlainText t) true false new_QTextCursor
                    NoTextInteraction)]> (heap w))
       (the_scene w),
     Ok (fresh (dom (heap w)))).
Proof.
  intros Hr Hne. unfold BeeTextItem.create_copy.
  rewrite (bind_deref self (Text t)) by exact Hr.
  rewrite (bind_Ok _ _ _ _ _ (text_init_str (toPlainText t) w Hne)).
  unfold fresh_text. rewrite !bind_on_base_insert. unfold flip.
  destruct (flipped (tx_base t)); simpl.
  - rewrite bind_on_base_insert. reflexivity.
  - reflexivity.
Qed.

(** C10 as it is stated fails for a text item whose content is the empty
    string: the copy goes through the constructor and holds "Text". *)
Lemma create_copy_counterexample :
  exists r t',
    snd (create_copy 1%positive sample_world) = Ok r /\
    heap (fst (create_copy 1%positive sample_world)) !! r = Some (Text t') /\
    toPlainText sample_text = "" /\ toPlainText t' = "Text".
Proof.
  exists 4%positive. eexists.
  split; [vm_compute; reflexivity |].
  split; [vm_compute; reflexivity |].
  split; reflexivity.
Qed.

(** C10, amended: for every image item, and for every text item whose
    content is not the empty string, [create_copy()] returns a new item of
    the same class with the position, stacking value, scale, rotation, flip
    state and type-specific content of the original and with a null
    [save_id]; the original is left as it was. *)
Theorem create_copy_equal (self : positive) (it : Item) (w : World) :
  heap w !! self = Some it ->
  (forall t, it = Text t -> toPlainText t <> "") ->
  exists r cp,
    create_copy self w
    = (MkWorld (<[r := cp]> (heap w)) (the_scene w), Ok r) /\
    heap w !! r = None /\
    class_of cp = class_of it /\
    same_geometry (base cp) (base it) /\
    same_content cp it /\
    save_id cp = PNone /\
    <[r := cp]> (heap w) !! self = Some it.
Proof.
  intros Hr Hne. unfold create_copy.
  rewrite (bind_deref self it) by exact Hr.
  assert (Hfresh : fresh (dom (heap w)) <> self).
  { intros Heq. pose proof (alloc_fresh w) as Hf. rewrite Heq in Hf. congruence. }
  destruct it as [p | t].
  - rewrite (pixmap_create_copy_run self p w Hr).
    do 2 eexists. split; [reflexivity |].
    split; [apply alloc_fresh |].
    split; [reflexivity |].
    split; [repeat split |].
    split; [split; reflexivity |].
    split; [reflexivity |].
    rewrite lookup_insert_ne by exact Hfresh. exact Hr.
  - rewrite (text_create_copy_run self t w Hr (Hne t eq_refl)).
    do 2 eexists. split; [reflexivity |].
    split; [apply alloc_fresh |].
    split; [reflexivity |].
    split; [repeat split |].
    split; [apply qt_plain_idem |].
    split; [reflexivity |].
    rewrite lookup_insert_ne by exact Hfresh. exact Hr.
Qed.

Lemma create_copy_equal_witness :
  (exists r cp,
     create_copy 2%positive sample_world
     = (MkWorld (<[r := cp]> (heap sample_world)) (the_scene sample_world), Ok r) /\
     same_content cp (Pixmap sample_pixmap) /\ save_id cp = PNone) /\
  (exists r cp,
     create_copy 3%positive sample_world
     = (MkWorld (<[r := cp]> (heap sample_world)) (the_scene sample_world), Ok r) /\
     same_content cp (Text sample_note) /\ save_id cp = PNone).
Proof.
  split.
  - destruct (create_copy_equal 2%positive (Pixmap sample_pixmap) sample_world
                eq_refl ltac:(discriminate))
      as (r & cp & Hrun & _ & _ & _ & Hc & Hs & _).
    exists r, cp. auto.
  - destruct (create_copy_equal 3%positive (Text sample_note) sample_world
                eq_refl)
      as (r & cp & Hrun & _ & _ & _ & Hc & Hs & _).
    + intros t [= <-]. discriminate.
    + exists r, cp. auto.
Defined.

(** ** Saving and reconstructing *)

Lemma text_get_extra_save_data_run (self : positive) (t : TextObj) (w : World) :
  heap w !! self = Some (Text t) ->
  BeeTextItem.get_extra_save_data self w
  = (w, Ok {["text" := PStr (toPlainText t)]}).
Proof.
  intros Hr. unfold BeeTextItem.get_extra_save_data.
  now rewrite (bind_deref self (Text t)) by exact Hr.
Qed.

Lemma pixmap_get_extra_save_data_run (self : positive) (p : PixmapObj)
    (w : World) :
  heap w !! self = Some (Pixmap p) ->
  BeePixmapItem.get_extra_save_data self w
  = (w, Ok {["filename" := filename p]}).
Proof.
  intros Hr. unfold BeePixmapItem.get_extra_save_data.
  now rewrite (bind_deref self (Pixmap p)) by exact Hr.
Qed.

(** A text payload that holds a text is handed to the constructor. *)
Lemma text_create_from_data_text (v : pyval) (w : World) :
  BeeTextItem.create_from_data {["data" := PDict {["text" := v]}]} w
  = BeeTextItem.__init__ v w.
Proof.
  unfold BeeTextItem.create_from_data.
  rewrite lookup_singleton_eq. simpl.
  rewrite dom_singleton_L, lookup_singleton_eq.
  destruct (decide _) as [_ | Hn]; [reflexivity | set_solver].
Qed.




(** ** Errors of the reconstruction routines *)

Lemma item_registry_lookup (tag : string) :
  item_registry !! tag
  = if decide (tag = "text") then Some BeeTextItemCls
    else if decide (tag = "pixmap") then Some BeePixmapItemCls
    else None.
Proof.
  unfold item_registry, register_item. simpl.
  destruct (decide (tag = "text")) as [-> | Ht].
  - apply lookup_insert_eq.
  - rewrite lookup_insert_ne by congruence.
    destruct (decide (tag = "pixmap")) as [-> | Hp].
    + apply lookup_insert_eq.
    + rewrite lookup_insert_ne by congruence. apply lookup_empty.
Qed.

Lemma pixmap_create_from_data_raises (kwargs : gmap string pyval)
    (w w' : World) (e : PyErr) :
  (forall r, kwargs !! "item" = Some (PObj r) -> is_Some (heap w !! r)) ->
  BeePixmapItem.create_from_data kwargs w = (w', Raise e) ->
  e = KeyError "item" \/ e = AttributeError.
Proof.
  intros Hwf. unfold BeePixmapItem.create_from_data.
  destruct (kwargs !! "item") as [item |] eqn:Hi.
  - destruct item as [| b | z | q | s | r | d];
      try (unfold bind, raise; simpl; intros [= _ <-]; now right).
    destruct (Hwf r eq_refl) as [it Hit].
    unfold BeePixmapItem.get_filename, BeePixmapItem.set_filename,
      BeePixmapItem.data_get_filename, bind, deref, ret, raise, store.
    rewrite Hit. destruct it as [p | t].
    + destruct (truthy (filename p)).
      * rewrite Hit. intros [= _ ?].
      * destruct (default (PDict ∅) (kwargs !! "data"));
          try (intros [= _ <-]; now right);
          rewrite Hit; intros [= _ ?].
    + intros [= _ <-]. now right.
  - unfold raise. intros [= _ <-]. now left.
Qed.

Lemma py_or_obj (text : pyval) (r : positive) :
  py_or text (PStr "Text") = PObj r -> text = PObj r.
Proof. unfold py_or. destruct (truthy text); [auto | discriminate]. Qed.

Lemma text_init_raises (text : pyval) (w w' : World) (e : PyErr) :
  (forall r, text = PObj r -> is_Some (heap w !! r)) ->
  BeeTextItem.__init__ text w = (w', Raise e) -> e = TypeError.
Proof.
  intros Hwf. unfold BeeTextItem.__init__.
  destruct (py_or text (PStr "Text")) as [| b | z | q | s | r | d] eqn:Hor;
    try (unfold raise; intros [= _ <-]; reflexivity).
  destruct (Hwf r (py_or_obj _ _ Hor)) as [it Hit].
  rewrite (bind_deref r it) by exact Hit.
  intros H. unfold alloc in H. inversion H.
Qed.

Lemma text_create_from_data_raises (kwargs : gmap string pyval)
    (w w' : World) (e : PyErr) :
  (forall d r, default (PDict ∅) (kwargs !! "data") = PDict d ->
               d !! "text" = Some (PObj r) -> is_Some (heap w !! r)) ->
  BeeTextItem.create_from_data kwargs w = (w', Raise e) -> e = TypeError.
Proof.
  intros Hwf. unfold BeeTextItem.create_from_data.
  destruct (default (PDict ∅) (kwargs !! "data")) as [| b | z | q | s | r | d];
    try (unfold raise; intros [= _ <-]; reflexivity).
  destruct (decide _).
  - apply text_init_raises. intros r Hr. apply (Hwf d r eq_refl).
    destruct (d !! "text"); simpl in Hr; [now rewrite Hr | discriminate].
  - unfold raise. intros [= _ <-]. reflexivity.
Qed.

Lemma create_from_data_unknown (tag : string) (kwargs : gmap string pyval)
    (w : World) :
  tag <> "pixmap" -> tag <> "text" ->
  create_from_data tag kwargs w = (w, Raise (UnknownTypeError tag)).
Proof.
  intros Hp Ht. unfold create_from_data. rewrite item_registry_lookup.
  destruct (decide (tag = "text")); [contradiction |].
  destruct (decide (tag = "pixmap")); [contradiction | reflexivity].
Qed.

Lemma load_document_app (rows1 rows2 : list Row) (w : World) :
  load_document (rows1 ++ rows2)%list w
  = (fst (load_document rows2 (fst (load_document rows1 w))),
     (snd (load_document rows1 w)
      ++ snd (load_document rows2 (fst (load_document rows1 w))))%list).
Proof.
  revert w. induction rows1 as [| row rows1 IH]; intros w; simpl.
  - now destruct (load_document rows2 w).
  - destruct (load_item row w) as [w1 r].
    rewrite IH. destruct (load_document rows1 w1) as [w2 rs]. reflexivity.
Qed.

Lemma load_document_unknown (row : Row) (rows : list Row) (w : World) :
  row_type row <> "pixmap" -> row_type row <> "text" ->
  load_document (row :: rows) w
  = (fst (load_document rows w),
     Raise (UnknownTypeError (row_type row)) :: snd (load_document rows w)).
Proof.
  intros Hp Ht. simpl. unfold load_item.
  rewrite (bind_Raise _ _ _ _ _
             (create_from_data_unknown _ (row_create row) w Hp Ht)).
  now destruct (load_document rows w).
Qed.

(** C3 as it is stated fails twice.  A payload without its field does not
    make [create_from_data] fail: an image payload without [filename] and a
    text payload without [text] both give an item.  And an error of another
    kind escapes: without the [item] keyword the routine for images raises
    [KeyError]. *)
Lemma create_from_data_counterexample :
  snd (BeePixmapItem.create_from_data
         (<["item" := PObj 1%positive]> {["data" := PDict ∅]}) blank_world)
  = Ok (PObj 1%positive) /\
  (exists r,
     snd (BeeTextItem.create_from_data {["data" := PDict ∅]} sample_world)
     = Ok r /\
     heap (fst (BeeTextItem.create_from_data {["data" := PDict ∅]}
                  sample_world))
     !! r = Some (fresh_text "Text")) /\
  snd (BeePixmapItem.create_from_data {["data" := PDict ∅]} blank_world)
  = Raise (KeyError "item").
Proof.
  split; [vm_compute; reflexivity |].
  split; [| vm_compute; reflexivity].
  exists 4%positive. split; vm_compute; reflexivity.
Qed.

(** C3, amended: during reconstruction, a persisted payload missing its
    field does not make [create_from_data] fail: an image item keeps its
    file name, or gets a null one, and a text item gets the content "Text".
    An unsupported type tag fails with an [UnknownTypeError] that is fatal
    only to that single item's load: the other items of the document are
    loaded as without it.  Besides it, Python's own errors escape the
    reconstruction routines: for image items [KeyError] when the [item]
    keyword is missing and [AttributeError] otherwise, for text items
    [TypeError]. *)
Theorem create_from_data_failures (kwargs : gmap string pyval) (w : World) :
  (forall r p d,
     kwargs !! "item" = Some (PObj r) -> heap w !! r = Some (Pixmap p) ->
     default (PDict ∅) (kwargs !! "data") = PDict d ->
     d !! "filename" = None ->
     BeePixmapItem.create_from_data kwargs w
     = (MkWorld (<[r := with_filename (py_or (filename p) PNone) p]> (heap w))
          (the_scene w),
        Ok (PObj r))) /\
  (default (PDict ∅) (kwargs !! "data") = PDict ∅ ->
     exists r w',
       BeeTextItem.create_from_data kwargs w = (w', Ok r) /\
       heap w' !! r = Some (fresh_text "Text")) /\
  (kwargs !! "item" = None ->
     BeePixmapItem.create_from_data kwargs w = (w, Raise (KeyError "item"))) /\
  (forall w' e,
     (forall r, kwargs !! "item" = Some (PObj r) -> is_Some (heap w !! r)) ->
     BeePixmapItem.create_from_data kwargs w = (w', Raise e) ->
     e = KeyError "item" \/ e = AttributeError) /\
  (forall w' e,
     (forall d r, default (PDict ∅) (kwargs !! "data") = PDict d ->
                  d !! "text" = Some (PObj r) -> is_Some (heap w !! r)) ->
     BeeTextItem.create_from_data kwargs w = (w', Raise e) -> e = TypeError) /\
  (forall tag, tag <> "pixmap" -> tag <> "text" ->
     create_from_data tag kwargs w = (w, Raise (UnknownTypeError tag))) /\
  (forall rows1 rows2 row,
     row_type row <> "pixmap" -> row_type row <> "text" ->
     fst (load_document (rows1 ++ row :: rows2)%list w)
     = fst (load_document (rows1 ++ rows2)%list w) /\
     snd (load_document (rows1 ++ row :: rows2)%list w)
     = (snd (load_document rows1 w)
        ++ Raise (UnknownTypeError (row_type row))
        :: snd (load_document rows2 (fst (load_document rows1 w))))%list).
Proof.
  split; [| split; [| split; [| split; [| split; [| split]]]]].
  - intros r p d Hi Hr Hd Hf. unfold py_or.
    destruct (truthy (filename p)) eqn:Ht.
    + now apply pixmap_create_from_data_keep.
    + rewrite (pixmap_create_from_data_fallback kwargs r p d w Hi Hr Ht Hd).
      now rewrite Hf.
  - intros Hd. unfold BeeTextItem.create_from_data. rewrite Hd.
    rewrite dom_empty_L.
    destruct (decide _) as [_ | Hn]; [| set_solver].
    rewrite lookup_empty. simpl.
    rewrite (text_init_default PNone w (or_introl eq_refl)).
    do 2 eexists. split; [reflexivity |]. simpl. apply lookup_insert_eq.
  - intros Hi. unfold BeePixmapItem.create_from_data. now rewrite Hi.
  - intros w' e. apply pixmap_create_from_data_raises.
  - intros w' e. apply text_create_from_data_raises.
  - intros tag. apply create_from_data_unknown.
  - intros rows1 rows2 row Hp Ht.
    rewrite !load_document_app, (load_document_unknown row rows2 _ Hp Ht).
    split; reflexivity.
Qed.

Lemma create_from_data_failures_witness :
  BeePixmapItem.create_from_data blank_kwargs blank_world
  = (MkWorld
       (<[1%positive :=
            with_filename (py_or PNone PNone)
              (MkPixmapObj new_QGraphicsItem PNone PNone [])]>
          (heap blank_world))
       (the_scene blank_world),
     Ok (PObj 1%positive)) /\
  BeePixmapItem.create_from_data ∅ blank_world
  = (blank_world, Raise (KeyError "item")) /\
  create_from_data "group" ∅ blank_world
  = (blank_world, Raise (UnknownTypeError "group")) /\
  snd (load_document
         ([MkRow "text" ∅ ∅] ++ MkRow "group" ∅ ∅ :: [MkRow "text" ∅ ∅])%list
         blank_world)
  = (snd (load_document [MkRow "text" ∅ ∅] blank_world)
     ++ Raise (UnknownTypeError "group")
     :: snd (load_document [MkRow "text" ∅ ∅]
               (fst (load_document [MkRow "text" ∅ ∅] blank_world))))%list.
Proof.
  assert (H1 : blank_kwargs !! "item" = Some (PObj 1%positive))
    by (vm_compute; reflexivity).
  assert (Hd : default (PDict ∅) (blank_kwargs !! "data") = PDict ∅)
    by (vm_compute; reflexivity).
  split; [| split; [| split]].
  - apply (proj1 (create_from_data_failures blank_kwargs blank_world)
             1%positive (MkPixmapObj new_QGraphicsItem PNone PNone []) ∅
             H1 eq_refl Hd).
    apply lookup_empty.
  - apply (proj1 (proj2 (proj2 (create_from_data_failures ∅ blank_world)))).
    apply lookup_empty.
  - apply (proj1 (proj2 (proj2 (proj2 (proj2 (proj2
             (create_from_data_failures ∅ blank_world)))))) "group");
      discriminate.
  - apply (proj2 (proj2 (proj2 (proj2 (proj2 (proj2
             (create_from_data_failures ∅ blank_world))))))
             [MkRow "text" ∅ ∅] [MkRow "text" ∅ ∅] (MkRow "group" ∅ ∅));
      discriminate.
Defined.

(** * Further properties of the module *)

(** ** The registry *)

(** X1: the registry is the inverse of the class attribute [TYPE]: a tag
    leads to a class exactly when it is the [TYPE] of that class. *)
Theorem item_registry_inverse (tag : string) (cls : ItemClass) :
  item_registry !! tag = Some cls <-> tag = TYPE cls.
Proof.
  rewrite item_registry_lookup.
  destruct (decide (tag = "text")) as [-> | Ht].
  - destruct cls; split; intros H; try discriminate; reflexivity.
  - destruct (decide (tag = "pixmap")) as [-> | Hp].
    + destruct cls; split; intros H; try discriminate; reflexivity.
    + destruct cls; split; intros H; try discriminate; simpl in H;
        contradiction.
Qed.

Lemma item_registry_inverse_witness :
  item_registry !! "pixmap" = Some BeePixmapItemCls /\
  item_registry !! "text" = Some BeeTextItemCls.
Proof.
  split.
  - apply (proj2 (item_registry_inverse "pixmap" BeePixmapItemCls)).
    reflexivity.
  - apply (proj2 (item_registry_inverse "text" BeeTextItemCls)).
    reflexivity.
Defined.

(** ** Outline and handles *)

Lemma has_selection_outline_run (self : positive) (it : Item) (w : World) :
  heap w !! self = Some it ->
  BeeItemMixin.has_selection_outline self w
  = (w, Ok (PBool (isSelected (base it)))).
Proof.
  intros H. unfold BeeItemMixin.has_selection_outline.
  now rewrite (bind_deref self it) by exact H.
Qed.

Lemma has_selection_handles_run (self : positive) (it : Item) (w : World) :
  heap w !! self = Some it ->
  exists v,
    has_selection_handles self w = (w, Ok v) /\
    (truthy v = true -> isSelected (base it) = true).
Proof.
  intros H. unfold has_selection_handles.
  rewrite (bind_deref self it) by exact H.
  destruct it as [p | t].
  - rewrite (mixin_has_selection_handles_run self _ w H). simpl.
    eexists. split; [reflexivity |].
    destruct (isSelected (pm_base p)); [reflexivity | discriminate].
  - rewrite (text_has_selection_handles_run self t w H). simpl.
    eexists. split; [reflexivity |].
    destruct (isSelected (tx_base t)); [reflexivity | simpl; discriminate].
Qed.

(** X2: an item that has selection handles has a selection outline: whenever
    [has_selection_handles()] returns a true value, [has_selection_outline()]
    returns [True].  Neither query changes the store or the scene. *)
Theorem handles_imply_outline (self : positive) (it : Item) (w : World) :
  heap w !! self = Some it ->
  exists v o,
    has_selection_handles self w = (w, Ok v) /\
    BeeItemMixin.has_selection_outline self w = (w, Ok (PBool o)) /\
    (truthy v = true -> o = true).
Proof.
  intros H.
  destruct (has_selection_handles_run self it w H) as (v & Hv & Hsel).
  exists v, (isSelected (base it)).
  split; [exact Hv |].
  split; [apply has_selection_outline_run, H | exact Hsel].
Qed.

Lemma handles_imply_outline_witness :
  exists v o,
    has_selection_handles 1%positive sample_world = (sample_world, Ok v) /\
    BeeItemMixin.has_selection_outline 1%positive sample_world
    = (sample_world, Ok (PBool o)) /\
    (truthy v = true -> o = true).
Proof.
  apply (handles_imply_outline 1%positive (Text sample_text) sample_world).
  reflexivity.
Defined.

(** ** More on [update_from_data] *)

Lemma with_base_base_save_id (v : pyval) (it : Item) :
  with_base (base it) (with_save_id v it) = with_save_id v it.
Proof. destruct it; reflexivity. Qed.

(** The outcome of [update_from_data], setter by setter. *)
Lemma update_from_data_run (self : positive) (it : Item)
    (kwargs : gmap string pyval) (w : World) :
  heap w !! self = Some it ->
  BeeItemMixin.update_from_data self kwargs w
  = let it0 :=
      with_save_id (BeeItemMixin.kwargs_get kwargs "save_id" (save_id it)) it in
    let out g (r : result unit) :=
      (MkWorld (<[self := with_base g it0]> (heap w)) (the_scene w), r) in
    match as_float (BeeItemMixin.kwargs_get kwargs "x" (PFloat (pos_x (base it)))),
          as_float (BeeItemMixin.kwargs_get kwargs "y" (PFloat (pos_y (base it))))
    with
    | Some x, Some y =>
        match as_float (BeeItemMixin.kwargs_get kwargs "z"
                          (PFloat (zValue (base it)))) with
        | Some z =>
            match as_float (BeeItemMixin.kwargs_get kwargs "scale"
                              (PFloat (scale (base it)))) with
            | Some s =>
                match as_float (BeeItemMixin.kwargs_get kwargs "rotation"
                                  (PFloat (rotation (base it)))) with
                | Some a =>
                    let g :=
                      MkQGraphicsItem (isSelected (base it))
                        (in_scene (base it)) x y z s a (flipped (base it))
                        (parentItem (base it)) in
                    out (if negb (py_eq_num
                                    (BeeItemMixin.kwargs_get kwargs "flip"
                                       (PInt 1)) (flip g))
                         then do_flip g else g) (Ok tt)
                | None =>
                    out (MkQGraphicsItem (isSelected (base it))
                           (in_scene (base it)) x y z s (rotation (base it))
                           (flipped (base it)) (parentItem (base it)))
                      (Raise TypeError)
                end
            | None =>
                out (MkQGraphicsItem (isSelected (base it))
                       (in_scene (base it)) x y z (scale (base it))
                       (rotation (base it)) (flipped (base it))
                       (parentItem (base it)))
                  (Raise TypeError)
            end
        | None =>
            out (MkQGraphicsItem (isSelected (base it)) (in_scene (base it))
                   x y (zValue (base it)) (scale (base it))
                   (rotation (base it)) (flipped (base it))
                   (parentItem (base it)))
              (Raise TypeError)
        end
    | _, _ => out (base it) (Raise TypeError)
    end.
Proof.
  intros Hr. unfold BeeItemMixin.update_from_data.
  rewrite (bind_deref self it) by exact Hr. rewrite bind_store.
  cbv zeta.
  repeat first
    [ rewrite bind_deref_insert
    | rewrite bind_qt_setPos_insert
    | rewrite bind_qt_set_insert
    | progress autorewrite with item_simpl
    | progress (unfold setRotation, setScale, setZValue, setPos;
                cbn [zValue scale rotation pos_x pos_y flipped isSelected
                     in_scene parentItem])
    | match goal with
      | |- context [match as_float ?v with _ => _ end] =>
          let E := fresh "E" in destruct (as_float v) eqn:E
      end ].
  all: rewrite ?with_base_base_save_id; try reflexivity.
  match goal with
  | |- context [if negb ?c then _ else _] => destruct c
  end; simpl.
  - reflexivity.
  - unfold store. simpl. rewrite insert_insert_eq.
    now autorewrite with item_simpl.
Qed.


Lemma kwargs_get_given (kwargs : gmap string pyval) (k : string)
    (d v : pyval) :
  kwargs !! k = Some v -> BeeItemMixin.kwargs_get kwargs k d = v.
Proof. intros H. unfold BeeItemMixin.kwargs_get. now rewrite H. Qed.

Lemma with_base_with_save_id (g : QGraphicsItem) (v : pyval) (it : Item) :
  with_base g (with_save_id v it) = with_save_id v (with_base g it).
Proof. destruct it; reflexivity. Qed.


Ltac numeric_by_lookup :=
  let v := fresh "v" in
  let Hv := fresh "Hv" in
  intros v Hv; vm_compute in Hv; simplify_eq; simpl; eauto.


(** X4: the [flip] keyword.  When the call goes through and [flip] is given
    as [1] or [-1], the item ends with that flip state, whatever it was
    before.  A given [flip] that equals neither [1] nor [-1] (such as [0] or
    [None]) never equals the state of the item, so the item is flipped over
    each time. *)
Theorem update_from_data_flip (self : positive) (it : Item)
    (kwargs : gmap string pyval) (w : World) (f : pyval) :
  heap w !! self = Some it ->
  numeric kwargs "x" -> numeric kwargs "y" -> numeric kwargs "z" ->
  numeric kwargs "scale" -> numeric kwargs "rotation" ->
  kwargs !! "flip" = Some f ->
  exists it',
    BeeItemMixin.update_from_data self kwargs w
    = (MkWorld (<[self := it']> (heap w)) (the_scene w), Ok tt) /\
    (py_eq_num f 1 = true \/ py_eq_num f (-1 # 1) = true ->
     py_eq_num f (flip (base it')) = true) /\
    (py_eq_num f 1 = false -> py_eq_num f (-1 # 1) = false ->
     flipped (base it') = negb (flipped (base it))).
Proof.
  intros Hr Hx Hy Hz Hs Ha Hf.
  rewrite (update_from_data_run self it kwargs w Hr).
  destruct (kwargs_get_numeric kwargs "x" (pos_x (base it)) Hx) as [x Ex].
  destruct (kwargs_get_numeric kwargs "y" (pos_y (base it)) Hy) as [y Ey].
  destruct (kwargs_get_numeric kwargs "z" (zValue (base it)) Hz) as [z Ez].
  destruct (kwargs_get_numeric kwargs "scale" (scale (base it)) Hs) as [s Es].
  destruct (kwargs_get_numeric kwargs "rotation" (rotation (base it)) Ha)
    as [a Ea].
  rewrite Ex, Ey, Ez, Es, Ea. cbv zeta.
  rewrite (kwargs_get_given _ _ _ _ Hf).
  eexists. split; [reflexivity |].
  autorewrite with item_simpl. unfold flip, do_flip. simpl.
  destruct (flipped (base it)); simpl;
    destruct (py_eq_num f 1) eqn:H1, (py_eq_num f (-1 # 1)) eqn:H2; simpl;
    rewrite ?H1, ?H2;
    (split; [intros [? | ?]; congruence || reflexivity
            | intros; congruence || reflexivity]).
Qed.

Lemma update_from_data_flip_witness :
  exists it',
    BeeItemMixin.update_from_data 3%positive move_kwargs sample_world
    = (MkWorld (<[3%positive := it']> (heap sample_world))
         (the_scene sample_world), Ok tt) /\
    py_eq_num (PInt (-1)) (flip (base it')) = true.
Proof.
  destruct (update_from_data_flip 3%positive (Text sample_note)
              move_kwargs sample_world (PInt (-1)) eq_refl)
    as (it' & Hrun & Hgiven & _); try numeric_by_lookup.
  - vm_compute. reflexivity.
  - exists it'. split; [exact Hrun |]. apply Hgiven. right. reflexivity.
Defined.

(** X5: what [update_from_data] never touches.  Whether it returns or
    raises, the only object it writes is the item itself, of which only the
    identifier and the geometry may differ afterwards: class, type-specific
    content, selection flag and scene membership stay, and so do the scene
    and every other object. *)
Theorem update_from_data_keeps (self : positive) (it : Item)
    (kwargs : gmap string pyval) (w : World) :
  heap w !! self = Some it ->
  exists g v,
    fst (BeeItemMixin.update_from_data self kwargs w)
    = MkWorld (<[self := with_save_id v (with_base g it)]> (heap w))
        (the_scene w) /\
    isSelected g = isSelected (base it) /\
    in_scene g = in_scene (base it) /\
    forall r, r <> self ->
      heap (fst (BeeItemMixin.update_from_data self kwargs w)) !! r
      = heap w !! r.
Proof.
  intros Hr. rewrite (update_from_data_run self it kwargs w Hr). cbv zeta.
  repeat match goal with
         | |- context [match as_float ?v with _ => _ end] =>
             destruct (as_float v)
         end;
    try match goal with
        | |- context [if negb ?c then _ else _] => destruct c
        end;
    rewrite with_base_with_save_id; simpl;
    do 2 eexists; (split; [reflexivity |]);
    (split; [reflexivity |]); (split; [reflexivity |]);
    intros r Hne; now rewrite lookup_insert_ne by congruence.
Qed.

Lemma update_from_data_keeps_witness :
  exists g v,
    fst (BeeItemMixin.update_from_data 1%positive bad_kwargs sample_world)
    = MkWorld (<[1%positive := with_save_id v (with_base g (Text sample_text))]>
                 (heap sample_world)) (the_scene sample_world) /\
    isSelected g = true /\ in_scene g = true.
Proof.
  destruct (update_from_data_keeps 1%positive (Text sample_text) bad_kwargs
              sample_world eq_refl) as (g & v & Hrun & Hsel & Hin & _).
  exists g, v. auto.
Defined.



(** Keywords that repeat what the item already holds change nothing. *)
Lemma update_from_data_agree (self : positive) (it : Item)
    (kwargs : gmap string pyval) (w : World) :
  heap w !! self = Some it ->
  (forall v, kwargs !! "save_id" = Some v -> v = save_id it) ->
  (forall v, kwargs !! "x" = Some v -> as_float v = Some (pos_x (base it))) ->
  (forall v, kwargs !! "y" = Some v -> as_float v = Some (pos_y (base it))) ->
  (forall v, kwargs !! "z" = Some v -> as_float v = Some (zValue (base it))) ->
  (forall v, kwargs !! "scale" = Some v -> as_float v = Some (scale (base it))) ->
  (forall v, kwargs !! "rotation" = Some v ->
             as_float v = Some (rotation (base it))) ->
  py_eq_num (BeeItemMixin.kwargs_get kwargs "flip" (PInt 1)) (flip (base it))
  = true ->
  BeeItemMixin.update_from_data self kwargs w = (w, Ok tt).
Proof.
  intros Hr Hid Hx Hy Hz Hs Ha Hf.
  assert (Hget : forall k q,
             (forall v, kwargs !! k = Some v -> as_float v = Some q) ->
             as_float (BeeItemMixin.kwargs_get kwargs k (PFloat q)) = Some q).
  { intros k q H. unfold BeeItemMixin.kwargs_get.
    destruct (kwargs !! k) as [v |]; simpl; [now apply H | reflexivity]. }
  assert (Hsave : BeeItemMixin.kwargs_get kwargs "save_id" (save_id it)
                  = save_id it).
  { unfold BeeItemMixin.kwargs_get.
    destruct (kwargs !! "save_id") as [v |] eqn:E; simpl;
      [now apply Hid | reflexivity]. }
  rewrite (update_from_data_run self it kwargs w Hr).
  rewrite (Hget _ _ Hx), (Hget _ _ Hy), (Hget _ _ Hz), (Hget _ _ Hs),
    (Hget _ _ Ha), Hsave.
  cbv zeta. unfold flip in *. simpl. rewrite Hf. simpl.
  replace (with_base _ (with_save_id (save_id it) it)) with it.
  - rewrite (insert_id _ _ _ Hr). now destruct w.
  - destruct it as [[[] ? ? ?] | [[] ? ? ? ? ? ?]]; reflexivity.
Qed.

(** X7: loading the common fields an item already has is the identity:
    [update_from_data] called with the item's own [save_id], position,
    stacking value, scale, rotation and flip state returns normally and
    leaves the store and the scene exactly as they were. *)
Theorem update_from_data_own_data (self : positive) (it : Item) (w : World) :
  heap w !! self = Some it ->
  BeeItemMixin.update_from_data self (own_data it) w = (w, Ok tt).
Proof.
  intros Hr. apply (update_from_data_agree self it); [exact Hr | ..].
  1-6: intros v Hv; unfold own_data in Hv;
    repeat (rewrite lookup_insert_ne in Hv by discriminate);
    rewrite lookup_insert_eq in Hv; injection Hv as <-; reflexivity.
  unfold BeeItemMixin.kwargs_get, own_data.
  repeat (rewrite lookup_insert_ne by discriminate).
  rewrite lookup_insert_eq. simpl.
  apply Qeq_bool_iff. reflexivity.
Qed.

Lemma update_from_data_own_data_witness :
  BeeItemMixin.update_from_data 1%positive (own_data (Text sample_text))
    sample_world
  = (sample_world, Ok tt).
Proof.
  apply (update_from_data_own_data 1%positive (Text sample_text) sample_world).
  reflexivity.
Defined.

(** X8: [update_from_data] is idempotent when [flip] is absent or given as
    [1] or [-1]: a second call with the same keywords returns normally and
    changes nothing.  (With another [flip] value each call flips the item
    over, see X4.) *)
Theorem update_from_data_idempotent (self : positive) (it : Item)
    (kwargs : gmap string pyval) (w : World) :
  heap w !! self = Some it ->
  numeric kwargs "x" -> numeric kwargs "y" -> numeric kwargs "z" ->
  numeric kwargs "scale" -> numeric kwargs "rotation" ->
  (forall f, kwargs !! "flip" = Some f ->
             py_eq_num f 1 = true \/ py_eq_num f (-1 # 1) = true) ->
  BeeItemMixin.update_from_data self kwargs
    (fst (BeeItemMixin.update_from_data self kwargs w))
  = (fst (BeeItemMixin.update_from_data self kwargs w), Ok tt).
Proof.
  intros Hr Hx Hy Hz Hs Ha Hflip.
  rewrite (update_from_data_run self it kwargs w Hr).
  destruct (kwargs_get_numeric kwargs "x" (pos_x (base it)) Hx) as [x Ex].
  destruct (kwargs_get_numeric kwargs "y" (pos_y (base it)) Hy) as [y Ey].
  destruct (kwargs_get_numeric kwargs "z" (zValue (base it)) Hz) as [z Ez].
  destruct (kwargs_get_numeric kwargs "scale" (scale (base it)) Hs) as [s Es].
  destruct (kwargs_get_numeric kwargs "rotation" (rotation (base it)) Ha)
    as [a Ea].
  rewrite Ex, Ey, Ez, Es, Ea. cbv zeta. simpl fst.
  eapply update_from_data_agree; [simpl; apply lookup_insert_eq | ..].
  - intros v Hv. autorewrite with item_simpl.
    symmetry. apply (kwargs_get_given _ _ _ _ Hv).
  - intros v Hv. rewrite (kwargs_get_given _ _ _ _ Hv) in Ex.
    autorewrite with item_simpl.
    destruct (negb _); exact Ex.
  - intros v Hv. rewrite (kwargs_get_given _ _ _ _ Hv) in Ey.
    autorewrite with item_simpl.
    destruct (negb _); exact Ey.
  - intros v Hv. rewrite (kwargs_get_given _ _ _ _ Hv) in Ez.
    autorewrite with item_simpl.
    destruct (negb _); exact Ez.
  - intros v Hv. rewrite (kwargs_get_given _ _ _ _ Hv) in Es.
    autorewrite with item_simpl.
    destruct (negb _); exact Es.
  - intros v Hv. rewrite (kwargs_get_given _ _ _ _ Hv) in Ea.
    autorewrite with item_simpl.
    destruct (negb _); exact Ea.
  - autorewrite with item_simpl. unfold flip, do_flip. simpl.
    unfold BeeItemMixin.kwargs_get in *.
    destruct (kwargs !! "flip") as [f |] eqn:Ef; simpl.
    + specialize (Hflip f eq_refl).
      destruct (flipped (base it));
        destruct (py_eq_num f 1) eqn:H1, (py_eq_num f (-1 # 1)) eqn:H2;
        simpl; rewrite ?H1, ?H2; try reflexivity;
        destruct Hflip; congruence.
    + destruct (flipped (base it)); reflexivity.
Qed.

Lemma update_from_data_idempotent_witness :
  BeeItemMixin.update_from_data 3%positive move_kwargs
    (fst (BeeItemMixin.update_from_data 3%positive move_kwargs sample_world))
  = (fst (BeeItemMixin.update_from_data 3%positive move_kwargs sample_world),
     Ok tt).
Proof.
  apply (update_from_data_idempotent 3%positive (Text sample_note)
           move_kwargs sample_world eq_refl); try numeric_by_lookup.
  all: intros f Hf; vm_compute in Hf; injection Hf as <-; right; reflexivity.
Defined.

(** ** More on [BeePixmapItem.create_from_data] *)

(** X9: [create_from_data] of image items hands back the very object passed
    as [item], creates no object, writes nothing but the file name of that
    item, and is idempotent: a second call with the same keywords changes
    nothing. *)
Theorem pixmap_create_from_data_idempotent (kwargs : gmap string pyval)
    (r : positive) (p : PixmapObj) (d : gmap string pyval) (w : World) :
  kwargs !! "item" = Some (PObj r) ->
  heap w !! r = Some (Pixmap p) ->
  default (PDict ∅) (kwargs !! "data") = PDict d ->
  exists f,
    BeePixmapItem.create_from_data kwargs w
    = (MkWorld (<[r := with_filename f p]> (heap w)) (the_scene w),
       Ok (PObj r)) /\
    dom (<[r := with_filename f p]> (heap w)) = dom (heap w) /\
    BeePixmapItem.create_from_data kwargs
      (MkWorld (<[r := with_filename f p]> (heap w)) (the_scene w))
    = (MkWorld (<[r := with_filename f p]> (heap w)) (the_scene w),
       Ok (PObj r)).
Proof.
  intros Hi Hr Hd.
  assert (Hdom : forall f, dom (<[r := with_filename f p]> (heap w))
                           = dom (heap w)).
  { intros f. apply dom_insert_lookup_L. eauto. }
  destruct (truthy (filename p)) eqn:Ht.
  - exists (filename p).
    split; [now apply pixmap_create_from_data_keep |].
    split; [apply Hdom |].
    erewrite pixmap_create_from_data_keep;
      [| exact Hi | simpl; apply lookup_insert_eq | exact Ht].
    simpl. now rewrite insert_insert_eq.
  - exists (default PNone (d !! "filename")).
    split; [now apply pixmap_create_from_data_fallback |].
    split; [apply Hdom |].
    destruct (truthy (default PNone (d !! "filename"))) eqn:Hv.
    + erewrite pixmap_create_from_data_keep;
        [| exact Hi | simpl; apply lookup_insert_eq | exact Hv].
      simpl. now rewrite insert_insert_eq.
    + erewrite pixmap_create_from_data_fallback;
        [| exact Hi | simpl; apply lookup_insert_eq | exact Hv | exact Hd].
      simpl. now rewrite insert_insert_eq.
Qed.

Lemma pixmap_create_from_data_idempotent_witness :
  exists f,
    BeePixmapItem.create_from_data sample_kwargs sample_world
    = (MkWorld (<[2%positive := with_filename f sample_pixmap]>
                  (heap sample_world)) (the_scene sample_world),
       Ok (PObj 2%positive)) /\
    BeePixmapItem.create_from_data sample_kwargs
      (MkWorld (<[2%positive := with_filename f sample_pixmap]>
                  (heap sample_world)) (the_scene sample_world))
    = (MkWorld (<[2%positive := with_filename f sample_pixmap]>
                  (heap sample_world)) (the_scene sample_world),
       Ok (PObj 2%positive)).
Proof.
  assert (Hi : sample_kwargs !! "item" = Some (PObj 2%positive))
    by (vm_compute; reflexivity).
  assert (Hd : default (PDict ∅) (sample_kwargs !! "data")
               = PDict {["filename" := PStr "other.png"]})
    by (vm_compute; reflexivity).
  destruct (pixmap_create_from_data_idempotent sample_kwargs 2%positive
              sample_pixmap _ sample_world Hi eq_refl Hd)
    as (f & H1 & _ & H2).
  exists f. split; assumption.
Defined.

(** ** More on the construction of text items *)

Lemma text_init_run (text : pyval) (w : World) :
  BeeTextItem.__init__ text w
  = match py_or text (PStr "Text") with
    | PStr s =>
        (MkWorld (<[fresh (dom (heap w)) := fresh_text s]> (heap w))
           (the_scene w),
         Ok (fresh (dom (heap w))))
    | PObj parent =>
        match heap w !! parent with
        | Some it =>
            (MkWorld
               (<[fresh (dom (heap w)) :=
                    Text (MkTextObj (child_QGraphicsItem parent (base it))
                            PNone "" true false new_QTextCursor
                            NoTextInteraction)]> (heap w))
               (the_scene w),
             Ok (fresh (dom (heap w))))
        | None => (w, Raise Dangling)
        end
    | _ => (w, Raise TypeError)
    end.
Proof.
  unfold BeeTextItem.__init__.
  destruct (py_or text (PStr "Text")); try reflexivity.
  unfold bind, deref. destruct (heap w !! r); reflexivity.
Qed.

Lemma py_or_text_nonempty (text : pyval) (s : string) :
  py_or text (PStr "Text") = PStr s -> s <> "".
Proof.
  unfold py_or. destruct (truthy text) eqn:Ht.
  - intros ->. simpl in Ht. intros ->. discriminate.
  - intros [= <-]. discriminate.
Qed.

(** When the constructor goes through. *)
Lemma text_init_ok (text : pyval) (w : World) :
  ((exists r, snd (BeeTextItem.__init__ text w) = Ok r) <->
   truthy text = false \/ (exists s, text = PStr s) \/
   exists parent, text = PObj parent /\ is_Some (heap w !! parent)) /\
  (forall e, snd (BeeTextItem.__init__ text w) = Raise e ->
             fst (BeeTextItem.__init__ text w) = w).
Proof.
  rewrite text_init_run. unfold py_or.
  destruct (truthy text) eqn:Ht.
  - destruct text as [| b | z | q | s | parent | d]; simpl.
    1-4, 7: split; [| reflexivity]; split;
      [ intros [? H]; discriminate
      | intros [H | [[? H] | (? & H & _)]]; discriminate ].
    + split; [| discriminate]. split; [intros _ | eauto].
      right. left. eauto.
    + destruct (heap w !! parent) as [it |] eqn:Hp; simpl.
      * split; [| discriminate]. split; [intros _ | eauto].
        right. right. eauto.
      * split; [| reflexivity]. split; [intros [? H]; discriminate |].
        intros [H | [[? H] | (? & [= <-] & [? H])]]; try discriminate.
        congruence.
  - simpl. split; [| discriminate]. split; [now left | eauto].
Qed.

(** X10: when [BeeTextItem.create_from_data] goes through.  It returns an
    item exactly when the payload is a mapping with no keyword other than
    [text] whose text is a string, a false value ([None], [0], ...) or an
    item (which the toolkit takes as the parent of the new item); in every
    other case it raises and the store is left as it was. *)
Theorem text_create_from_data_outcome (kwargs : gmap string pyval) (w : World) :
  ((exists r, snd (BeeTextItem.create_from_data kwargs w) = Ok r) <->
   exists d,
     default (PDict ∅) (kwargs !! "data") = PDict d /\
     dom d ⊆ ({["text"]} : gset string) /\
     (truthy (default PNone (d !! "text")) = false \/
      (exists s, default PNone (d !! "text") = PStr s) \/
      exists parent,
        default PNone (d !! "text") = PObj parent /\
        is_Some (heap w !! parent))) /\
  (forall e, snd (BeeTextItem.create_from_data kwargs w) = Raise e ->
             fst (BeeTextItem.create_from_data kwargs w) = w).
Proof.
  unfold BeeTextItem.create_from_data.
  destruct (default (PDict ∅) (kwargs !! "data"))
    as [| b | z | q | s | r | d];
    try (split; [split; [intros [? H]; discriminate
                        | intros (? & H & _); discriminate]
                | reflexivity]).
  destruct (decide (dom d ⊆ {["text"]})) as [Hsub | Hsub].
  - destruct (text_init_ok (default PNone (d !! "text")) w) as [Hiff Hfail].
    split; [| exact Hfail].
    rewrite Hiff. split.
    + intros H. exists d. auto.
    + intros (d' & [= <-] & _ & H). exact H.
  - simpl. split; [| reflexivity].
    split; [intros [? H]; discriminate |].
    intros (d' & [= <-] & Hs & _). contradiction.
Qed.

Lemma text_create_from_data_outcome_witness :
  (exists r,
     snd (BeeTextItem.create_from_data {["data" := PDict {["text" := PInt 0]}]}
            sample_world) = Ok r) /\
  fst (BeeTextItem.create_from_data
         {["data" := PDict {["colour" := PStr "red"]}]} sample_world)
  = sample_world.
Proof.
  split.
  - apply (proj1 (text_create_from_data_outcome _ sample_world)).
    exists {["text" := PInt 0]}.
    split; [vm_compute; reflexivity |].
    split; [rewrite dom_singleton_L; reflexivity |].
    left. vm_compute. reflexivity.
  - apply (proj2 (text_create_from_data_outcome _ sample_world) TypeError).
    vm_compute. reflexivity.
Defined.

(** X11: a text item built from a text never starts out empty.  Every item
    that the constructor returns for a text that is not an item has a
    content that is not the empty string, is not in edit mode, has a null
    [save_id], and is neither selected nor in a scene; so has every item
    [create_from_data] returns for a payload whose text is not an item.
    Given an item as the text, the constructor builds an empty text item
    that is a child of that item and is in its scene. *)
Theorem text_item_never_empty (w w' : World) (r : positive) :
  (forall text, (forall parent, text <> PObj parent) ->
     BeeTextItem.__init__ text w = (w', Ok r) ->
     exists t,
       heap w' !! r = Some (Text t) /\ toPlainText t <> "" /\
       edit_mode t = false /\ tx_save_id t = PNone /\
       isSelected (tx_base t) = false /\ in_scene (tx_base t) = false) /\
  (forall kwargs,
     (forall d parent, default (PDict ∅) (kwargs !! "data") = PDict d ->
                       d !! "text" <> Some (PObj parent)) ->
     BeeTextItem.create_from_data kwargs w = (w', Ok r) ->
     exists t,
       heap w' !! r = Some (Text t) /\ toPlainText t <> "" /\
       edit_mode t = false /\ tx_save_id t = PNone /\
       isSelected (tx_base t) = false /\ in_scene (tx_base t) = false) /\
  (forall parent it, heap w !! parent = Some it ->
     BeeTextItem.__init__ (PObj parent) w = (w', Ok r) ->
     exists t,
       heap w' !! r = Some (Text t) /\ toPlainText t = "" /\
       parentItem (tx_base t) = Some parent /\
       in_scene (tx_base t) = in_scene (base it)).
Proof.
  assert (Hinit : forall text, (forall parent, text <> PObj parent) ->
            BeeTextItem.__init__ text w = (w', Ok r) ->
            exists t,
              heap w' !! r = Some (Text t) /\ toPlainText t <> "" /\
              edit_mode t = false /\ tx_save_id t = PNone /\
              isSelected (tx_base t) = false /\ in_scene (tx_base t) = false).
  { intros text Hno. rewrite text_init_run.
    destruct (py_or text (PStr "Text")) as [| b | z | q | s | p | d] eqn:Hor;
      try discriminate.
    - intros [= <- <-]. eexists. split; [simpl; apply lookup_insert_eq |].
      split; [| repeat split].
      unfold toPlainText. simpl. rewrite qt_plain_empty.
      exact (py_or_text_nonempty _ _ Hor).
    - exfalso. apply (Hno p). exact (py_or_obj _ _ Hor). }
  split; [exact Hinit |]. split.
  - intros kwargs Hno. unfold BeeTextItem.create_from_data.
    destruct (default (PDict ∅) (kwargs !! "data")) as [| b | z | q | s | p | d];
      try discriminate.
    destruct (decide _); [| discriminate].
    apply Hinit. intros parent Hp.
    apply (Hno d parent eq_refl).
    destruct (d !! "text"); simpl in Hp; [now rewrite Hp | discriminate].
  - intros parent it Hp. rewrite text_init_run. simpl. rewrite Hp.
    intros [= <- <-]. eexists. split; [simpl; apply lookup_insert_eq |].
    repeat split.
Qed.

Lemma text_item_never_empty_witness :
  (exists t,
     heap (fst (BeeTextItem.__init__ (PStr "") sample_world)) !! 4%positive
     = Some (Text t) /\ toPlainText t <> "") /\
  (exists t,
     heap (fst (BeeTextItem.__init__ (PObj 2%positive) sample_world))
     !! 4%positive = Some (Text t) /\
     toPlainText t = "" /\ in_scene (tx_base t) = true).
Proof.
  split.
  - destruct (proj1 (text_item_never_empty sample_world
                       (fst (BeeTextItem.__init__ (PStr "") sample_world))
                       4%positive) (PStr ""))
      as (t & Hl & Hne & _).
    + discriminate.
    + vm_compute. reflexivity.
    + exists t. split; assumption.
  - destruct (proj2 (proj2 (text_item_never_empty sample_world
                       (fst (BeeTextItem.__init__ (PObj 2%positive)
                               sample_world))
                       4%positive)) 2%positive (Pixmap sample_pixmap))
      as (t & Hl & He & _ & Hin).
    + reflexivity.
    + vm_compute. reflexivity.
    + exists t. repeat split; assumption.
Defined.

(** ** More on [create_copy] *)

(** The copy of a text item, whatever its content. *)
Lemma text_create_copy_run_any (self : positive) (t : TextObj) (w : World) :
  heap w !! self = Some (Text t) ->
  BeeTextItem.create_copy self w
  = (MkWorld
       (<[fresh (dom (heap w)) :=
            Text (MkTextObj
                    (MkQGraphicsItem false false (pos_x (tx_base t))
                       (pos_y (tx_base t)) (zValue (tx_base t))
                       (scale (tx_base t)) (rotation (tx_base t))
                       (flipped (tx_base t)) None)
                    PNone
                    (if String.eqb (toPlainText t) "" then "Text"
                     else toPlainText t)
                    true false new_QTextCursor NoTextInteraction)]> (heap w))
       (the_scene w),
     Ok (fresh (dom (heap w)))).
Proof.
  intros Hr. unfold BeeTextItem.create_copy.
  rewrite (bind_deref self (Text t)) by exact Hr.
  assert (Hinit : BeeTextItem.__init__ (PStr (toPlainText t)) w
                  = (MkWorld
                       (<[fresh (dom (heap w)) :=
                            fresh_text (if String.eqb (toPlainText t) ""
                                        then "Text" else toPlainText t)]>
                          (heap w)) (the_scene w),
                     Ok (fresh (dom (heap w))))).
  { rewrite text_init_run. unfold py_or. simpl.
    destruct (String.eqb (toPlainText t) ""); reflexivity. }
  rewrite (bind_Ok _ _ _ _ _ Hinit).
  unfold fresh_text. rewrite !bind_on_base_insert. unfold flip.
  destruct (flipped (tx_base t)); simpl.
  - rewrite bind_on_base_insert. reflexivity.
  - reflexivity.
Qed.

(** X12: [create_copy()] always goes through and gives a detached item: for
    every item it returns a new object and leaves the scene as it was; the
    copy is neither selected nor in a scene, even when the original is, and
    the copy of a text item is not in edit mode, has a new cursor and no
    text interaction, even when the original is being edited. *)
Theorem create_copy_detached (self : positive) (it : Item) (w : World) :
  heap w !! self = Some it ->
  exists r cp,
    create_copy self w
    = (MkWorld (<[r := cp]> (heap w)) (the_scene w), Ok r) /\
    heap w !! r = None /\
    isSelected (base cp) = false /\ in_scene (base cp) = false /\
    (forall t, cp = Text t ->
       edit_mode t = false /\ textCursor t = new_QTextCursor /\
       textInteractionFlags t = NoTextInteraction /\ toPlainText t <> "").
Proof.
  intros Hr. unfold create_copy.
  rewrite (bind_deref self it) by exact Hr.
  destruct it as [p | t].
  - rewrite (pixmap_create_copy_run self p w Hr).
    do 2 eexists. split; [reflexivity |].
    split; [apply alloc_fresh |].
    split; [reflexivity |]. split; [reflexivity |].
    intros t [=].
  - rewrite (text_create_copy_run_any self t w Hr).
    do 2 eexists. split; [reflexivity |].
    split; [apply alloc_fresh |].
    split; [reflexivity |]. split; [reflexivity |].
    intros t' [= <-]. simpl. repeat split.
    unfold toPlainText at 1. simpl. rewrite qt_plain_empty.
    destruct (String.eqb_spec (toPlainText t) ""); [discriminate | assumption].
Qed.

Lemma create_copy_detached_witness :
  exists r cp,
    create_copy 1%positive sample_world
    = (MkWorld (<[r := cp]> (heap sample_world)) (the_scene sample_world),
       Ok r) /\
    isSelected (base (Text sample_text)) = true /\
    isSelected (base cp) = false /\ in_scene (base cp) = false.
Proof.
  destruct (create_copy_detached 1%positive (Text sample_text) sample_world
              eq_refl) as (r & cp & Hrun & _ & Hsel & Hin & _).
  exists r, cp. repeat split; assumption.
Defined.

(** X13: copying a copy gives the copy again: the copy of the copy of an
    item is a second new object that is equal, field by field, to the first
    copy.  This holds for every item, also for a text item whose content is
    the empty string. *)
Theorem create_copy_of_copy (self : positive) (it : Item) (w : World) :
  heap w !! self = Some it ->
  exists r1 r2 cp w1 w2,
    create_copy self w = (w1, Ok r1) /\
    create_copy r1 w1 = (w2, Ok r2) /\
    r1 <> r2 /\ heap w2 !! r1 = Some cp /\ heap w2 !! r2 = Some cp.
Proof.
  intros Hr.
  assert (Hstep : forall (w0 : World) (r0 : positive) (it0 : Item),
            heap w0 !! r0 = Some it0 ->
            exists cp0,
              create_copy r0 w0
              = (MkWorld (<[fresh (dom (heap w0)) := cp0]> (heap w0))
                   (the_scene w0), Ok (fresh (dom (heap w0)))) /\
              (forall w' r', heap w' !! r' = Some cp0 ->
                 create_copy r' w'
                 = (MkWorld (<[fresh (dom (heap w')) := cp0]> (heap w'))
                      (the_scene w'), Ok (fresh (dom (heap w')))))).
  { intros w0 r0 it0 H0. unfold create_copy.
    rewrite (bind_deref r0 it0) by exact H0.
    destruct it0 as [p | t].
    - rewrite (pixmap_create_copy_run r0 p w0 H0).
      eexists. split; [reflexivity |].
      intros w' r' H'. rewrite (bind_deref r' _) by exact H'.
      cbv beta iota.
      now rewrite (pixmap_create_copy_run r' _ w' H').
    - rewrite (text_create_copy_run_any r0 t w0 H0).
      eexists. split; [reflexivity |].
      intros w' r' H'. rewrite (bind_deref r' _) by exact H'.
      cbv beta iota.
      rewrite (text_create_copy_run_any r' _ w' H'). simpl.
      destruct (String.eqb (toPlainText t) "") eqn:He.
      + reflexivity.
      + unfold toPlainText in *. simpl. rewrite qt_plain_idem, He.
        reflexivity. }
  destruct (Hstep w self it Hr) as (cp & Hrun1 & Hagain).
  set (r1 := fresh (dom (heap w))) in *.
  set (w1 := MkWorld (<[r1 := cp]> (heap w)) (the_scene w)) in *.
  assert (H1 : heap w1 !! r1 = Some cp) by (simpl; apply lookup_insert_eq).
  assert (Hne : r1 <> fresh (dom (heap w1))).
  { intros Heq. pose proof (alloc_fresh w1) as Hf. rewrite <- Heq in Hf.
    congruence. }
  exists r1, (fresh (dom (heap w1))), cp, w1,
    (MkWorld (<[fresh (dom (heap w1)) := cp]> (heap w1)) (the_scene w1)).
  split; [exact Hrun1 |].
  split; [apply (Hagain w1 r1 H1) |].
  split; [exact Hne |]. simpl. split.
  - rewrite lookup_insert_ne by (intros Heq; apply Hne; symmetry; exact Heq).
    apply lookup_insert_eq.
  - apply lookup_insert_eq.
Qed.

Lemma create_copy_of_copy_witness :
  exists r1 r2 cp w1 w2,
    create_copy 1%positive sample_world = (w1, Ok r1) /\
    create_copy r1 w1 = (w2, Ok r2) /\
    r1 <> r2 /\ heap w2 !! r1 = Some cp /\ heap w2 !! r2 = Some cp.
Proof.
  apply (create_copy_of_copy 1%positive (Text sample_text) sample_world).
  reflexivity.
Defined.

(** ** More on the edit mode *)

(** X14: entering and leaving edit mode compose as expected.  Leaving after
    entering gives the same state as leaving at once; leaving twice, or
    entering twice, is the same as doing it once; and for an item that is
    not being edited and has a neutral cursor and no text interaction (as
    after construction or after [exit_edit_mode()]), entering and then
    leaving restores the store exactly. *)
Theorem edit_mode_round (self : positive) (t : TextObj) (w : World) :
  heap w !! self = Some (Text t) ->
  fst (BeeTextItem.exit_edit_mode self
         (fst (BeeTextItem.enter_edit_mode self w)))
  = fst (BeeTextItem.exit_edit_mode self w) /\
  BeeTextItem.exit_edit_mode self (fst (BeeTextItem.exit_edit_mode self w))
  = (fst (BeeTextItem.exit_edit_mode self w), Ok tt) /\
  BeeTextItem.enter_edit_mode self (fst (BeeTextItem.enter_edit_mode self w))
  = (fst (BeeTextItem.enter_edit_mode self w), Ok tt) /\
  (edit_mode t = false -> textCursor t = new_QTextCursor ->
   textInteractionFlags t = NoTextInteraction ->
   fst (BeeTextItem.exit_edit_mode self
          (fst (BeeTextItem.enter_edit_mode self w))) = w).
Proof.
  intros Hr.
  rewrite (enter_edit_mode_run self t w Hr), (exit_edit_mode_run self t w Hr).
  simpl fst.
  split; [| split; [| split]].
  - erewrite exit_edit_mode_run by (simpl; apply lookup_insert_eq).
    simpl. now rewrite insert_insert_eq.
  - erewrite exit_edit_mode_run by (simpl; apply lookup_insert_eq).
    simpl. now rewrite insert_insert_eq.
  - erewrite enter_edit_mode_run by (simpl; apply lookup_insert_eq).
    simpl. now rewrite insert_insert_eq.
  - intros He Hc Hf.
    erewrite exit_edit_mode_run by (simpl; apply lookup_insert_eq).
    simpl. rewrite insert_insert_eq, <- He, <- Hc, <- Hf.
    replace (Text _) with (Text t) by (now destruct t).
    rewrite (insert_id _ _ _ Hr). now destruct w.
Qed.

Lemma edit_mode_round_witness :
  fst (BeeTextItem.exit_edit_mode 1%positive
         (fst (BeeTextItem.enter_edit_mode 1%positive sample_world)))
  = sample_world.
Proof.
  apply (edit_mode_round 1%positive sample_text sample_world eq_refl);
    reflexivity.
Defined.

(** X15: the handles come back when editing ends.  For a text item that is
    the single selection of its scene, [has_selection_handles()] returns
    [False] after [enter_edit_mode()] and [True] again after
    [exit_edit_mode()], and likewise after a key press of Enter or Return
    without modifier. *)
Theorem handles_after_edit
    (super : positive -> QKeyEvent -> M QKeyEvent)
    (self : positive) (t : TextObj) (w : World) (event : QKeyEvent) :
  heap w !! self = Some (Text t) ->
  isSelected (tx_base t) = true -> in_scene (tx_base t) = true ->
  size (selectedItems (the_scene w)) = 1 ->
  key event = Key_Enter \/ key event = Key_Return ->
  modifiers event = NoModifier ->
  snd (has_selection_handles self (fst (BeeTextItem.enter_edit_mode self w)))
  = Ok (PBool false) /\
  snd (has_selection_handles self (fst (BeeTextItem.exit_edit_mode self w)))
  = Ok (PBool true) /\
  snd (has_selection_handles self
         (fst (BeeTextItem.keyPressEvent super self event w)))
  = Ok (PBool true).
Proof.
  intros Hr Hsel Hin Hone Hk Hm.
  assert (Hs : has_single_selection (the_scene w) = true)
    by (unfold has_single_selection; now rewrite Hone).
  assert (Hrun : forall (t' : TextObj) (sc : Scene),
            tx_base t' = tx_base t ->
            selectedItems sc = selectedItems (the_scene w) ->
            snd (has_selection_handles self
                   (MkWorld (<[self := Text t']> (heap w)) sc))
            = Ok (PBool (negb (edit_mode t')))).
  { intros t' sc Hb Hsc. unfold has_selection_handles.
    erewrite bind_deref by (simpl; apply lookup_insert_eq). cbv beta iota.
    erewrite text_has_selection_handles_run
      by (simpl; apply lookup_insert_eq).
    simpl. rewrite Hb, Hsel, Hin. unfold has_single_selection. simpl.
    now rewrite Hsc, Hone. }
  rewrite (enter_edit_mode_run self t w Hr), (exit_edit_mode_run self t w Hr),
    (keyPressEvent_enter_run super self t event w Hr Hk Hm).
  simpl. rewrite Hin. simpl.
  split; [| split]; apply Hrun; reflexivity.
Qed.

Lemma handles_after_edit_witness :
  snd (has_selection_handles 1%positive
         (fst (BeeTextItem.enter_edit_mode 1%positive sample_world)))
  = Ok (PBool false) /\
  snd (has_selection_handles 1%positive
         (fst (BeeTextItem.exit_edit_mode 1%positive sample_world)))
  = Ok (PBool true) /\
  snd (has_selection_handles 1%positive
         (fst (BeeTextItem.keyPressEvent (fun _ e => ret e) 1%positive
                 (MkQKeyEvent Key_Enter NoModifier false) sample_world)))
  = Ok (PBool true).
Proof.
  apply (handles_after_edit (fun _ e => ret e) 1%positive sample_text
           sample_world (MkQKeyEvent Key_Enter NoModifier false));
    try reflexivity.
  left. reflexivity.
Defined.

(** ** The description of a text item *)

Lemma py_len_append (a b : string) :
  py_len (String.append a b) = py_len a + py_len b.
Proof.
  induction a as [| c a IH]; simpl; [reflexivity |].
  rewrite IH. now destruct (continues c).
Qed.

Lemma py_len_take (n : nat) (s : string) : py_len (py_take n s) <= n.
Proof.
  revert n. induction s as [| c s IH]; intros n; simpl; [lia |].
  destruct (continues c) eqn:Hc; simpl.
  - rewrite Hc. apply IH.
  - destruct n as [| n]; simpl; [lia |].
    rewrite Hc. specialize (IH n). lia.
Qed.

Lemma py_take_whole (n : nat) (s : string) :
  py_len s <= n -> py_take n s = s.
Proof.
  revert n. induction s as [| c s IH]; intros n; simpl; [reflexivity |].
  destruct (continues c).
  - intros H. now rewrite IH.
  - destruct n as [| n]; intros H; [lia |].
    rewrite IH by lia. reflexivity.
Qed.

(** X16: the description [__str__] of a text item is never longer than 47
    characters; a content of at most 40 characters is shown in full between
    double quotes after the word [Text].  Characters are counted as Python
    counts them, one for each code point.  Asking for the description
    changes nothing. *)
Theorem text_str_bounded (self : positive) (t : TextObj) (w : World) :
  heap w !! self = Some (Text t) ->
  exists s,
    BeeTextItem.__str__ self w = (w, Ok s) /\
    py_len s <= 47 /\
    (py_len (toPlainText t) <= 40 ->
     s = String.append "Text "
           (String.append BeeTextItem.dquote
              (String.append (toPlainText t) BeeTextItem.dquote))).
Proof.
  intros Hr. unfold BeeTextItem.__str__.
  rewrite (bind_deref self (Text t)) by exact Hr. cbv zeta.
  eexists. split; [reflexivity |]. split.
  - rewrite !py_len_append.
    pose proof (py_len_take 40 (toPlainText t)) as Hle.
    change (py_len "Text ") with 5.
    change (py_len BeeTextItem.dquote) with 1. lia.
  - intros Hlen. now rewrite (py_take_whole 40 (toPlainText t) Hlen).
Qed.

Lemma text_str_bounded_witness :
  exists s,
    BeeTextItem.__str__ 3%positive sample_world = (sample_world, Ok s) /\
    py_len s <= 47 /\
    s = String.append "Text "
          (String.append BeeTextItem.dquote
             (String.append "note" BeeTextItem.dquote)).
Proof.
  destruct (text_str_bounded 3%positive sample_note sample_world eq_refl)
    as (s & Hrun & Hlen & Hfull).
  exists s. split; [exact Hrun |]. split; [exact Hlen |].
  apply Hfull. vm_compute. lia.
Defined.

(** ** Reconstructing and saving again *)

(** X17: what was loaded is what gets saved.  A text item built by
    [create_from_data] from the payload [{'text': s}], for a non-empty
    string [s], gives from [get_extra_save_data()] the payload with the
    plain form of [s] (the form the document returns: line breaks as line
    feeds, no-break spaces as spaces), which is the payload itself when [s]
    is in that form.  A blank image item passed through [create_from_data]
    with the payload [{'filename': f}], for any [f], gives that payload
    back. *)
Theorem load_then_save (w : World) :
  (forall s, s <> "" ->
     exists r w',
       BeeTextItem.create_from_data {["data" := PDict {["text" := PStr s]}]} w
       = (w', Ok r) /\
       BeeTextItem.get_extra_save_data r w'
       = (w', Ok {["text" := PStr (qt_plain s)]}) /\
       (qt_plain s = s ->
        BeeTextItem.get_extra_save_data r w'
        = (w', Ok {["text" := PStr s]}))) /\
  (forall f image,
     exists b w1 w2,
       BeePixmapItem.__init__ image PNone w = (w1, Ok b) /\
       BeePixmapItem.create_from_data
         (<["item" := PObj b]> {["data" := PDict {["filename" := f]}]}) w1
       = (w2, Ok (PObj b)) /\
       BeePixmapItem.get_extra_save_data b w2
       = (w2, Ok {["filename" := f]})).
Proof.
  split.
  - intros s Hs. rewrite text_create_from_data_text, (text_init_str s w Hs).
    do 2 eexists. split; [reflexivity |].
    erewrite text_get_extra_save_data_run by (simpl; apply lookup_insert_eq).
    unfold toPlainText. simpl.
    split; [reflexivity |]. intros ->. reflexivity.
  - intros f image. do 3 eexists. split; [reflexivity |].
    rewrite (pixmap_create_from_data_fallback _ (fresh (dom (heap w)))
               (MkPixmapObj new_QGraphicsItem PNone PNone image)
               {["filename" := f]}).
    + split; [reflexivity |].
      erewrite pixmap_get_extra_save_data_run
        by (simpl; apply lookup_insert_eq).
      simpl. now rewrite lookup_singleton_eq.
    + apply lookup_insert_eq.
    + simpl. apply lookup_insert_eq.
    + reflexivity.
    + rewrite lookup_insert_ne by discriminate.
      rewrite lookup_singleton_eq. reflexivity.
Qed.

Lemma load_then_save_witness :
  (exists r w',
     BeeTextItem.create_from_data {["data" := PDict {["text" := PStr "note"]}]}
       sample_world = (w', Ok r) /\
     BeeTextItem.get_extra_save_data r w'
     = (w', Ok {["text" := PStr "note"]})) /\
  (exists r w',
     BeeTextItem.create_from_data
       {["data" := PDict {["text" := PStr sample_cr]}]} sample_world
     = (w', Ok r) /\
     BeeTextItem.get_extra_save_data r w'
     = (w', Ok {["text" := PStr sample_lf]})).
Proof.
  split.
  - destruct (proj1 (load_then_save sample_world) "note")
      as (r & w' & Hrun & _ & Hsame); [discriminate |].
    exists r, w'. split; [exact Hrun |]. apply Hsame. reflexivity.
  - destruct (proj1 (load_then_save sample_world) sample_cr)
      as (r & w' & Hrun & Hsave & _); [discriminate |].
    exists r, w'. split; [exact Hrun |]. exact Hsave.
Defined.

(** ** [safe_timer] *)

Section SafeTimerFacts.

Variable S : Type.

Lemma singleShot_in_range (timeout : Z) (func : S -> S * result unit)
    (pending : list (Main.Shot S)) :
  (0 <= timeout < 2 ^ 31)%Z ->
  Main.singleShot S timeout func pending
  = ((pending ++ [Main.MkShot S timeout func])%list, Ok tt).
Proof.
  intros H. unfold Main.singleShot.
  destruct (Z.ltb_spec timeout (- 2 ^ 31)); [lia |].
  destruct (Z.leb_spec (2 ^ 31) timeout); [lia |].
  destruct (Z.ltb_spec timeout 0); [lia |]. reflexivity.
Qed.

Lemma fire_Permutation (i : nat) (st : S * list (Main.Shot S)) :
  Forall (fun shot => (0 <= Main.shot_timeout S shot < 2 ^ 31)%Z) (snd st) ->
  snd (Main.fire S i st) ≡ₚ snd st.
Proof.
  intros Hall.
  unfold Main.fire. destruct (snd st !! i) as [shot |] eqn:Hi; [| reflexivity].
  pose proof (Forall_lookup_1 _ _ _ _ Hall Hi) as Hshot.
  unfold Main.timer_event. simpl.
  destruct (Main.shot_func S shot (fst st)) as [s' r].
  rewrite (singleShot_in_range _ _ _ Hshot). simpl.
  rewrite (delete_Permutation (snd st) i shot Hi) at 2.
  rewrite Permutation_app_comm. simpl. now destruct shot.
Qed.

Lemma fire_all_Permutation (fired : list nat) (st : S * list (Main.Shot S)) :
  Forall (fun shot => (0 <= Main.shot_timeout S shot < 2 ^ 31)%Z) (snd st) ->
  snd (Main.fire_all S fired st) ≡ₚ snd st.
Proof.
  unfold Main.fire_all. revert st.
  induction fired as [| i fired IH]; intros st Hall; simpl; [reflexivity |].
  pose proof (fire_Permutation i st Hall) as Hp.
  rewrite IH by (rewrite Hp; exact Hall). exact Hp.
Qed.

(** X18: a safe timer is never lost and never doubled.  The timeout of a
    timer is a C [int] that is not negative.  Whatever timers the event loop
    fires, in whatever order, and whether the callbacks return or raise,
    the pending timers afterwards are those from before (each firing arms
    its timer again); in particular, after [safe_timer] with such a timeout
    on a loop without timers there is always exactly that one timer
    pending, with its timeout and its callback.  With a negative timeout,
    or with one that does not fit a C [int], [safe_timer] arms nothing, and
    in the second case it raises. *)
Theorem safe_timer_rearms (timeout : Z) (func : S -> S * result unit)
    (fired : list nat) (st : S * list (Main.Shot S)) (s : S) :
  (Forall (fun shot => (0 <= Main.shot_timeout S shot < 2 ^ 31)%Z) (snd st) ->
   snd (Main.fire_all S fired st) ≡ₚ snd st) /\
  ((0 <= timeout < 2 ^ 31)%Z ->
   snd (Main.fire_all S fired (fst (Main.safe_timer S timeout func (s, []))))
   = [Main.MkShot S timeout func]) /\
  ((timeout < 0)%Z \/ (2 ^ 31 <= timeout)%Z ->
   fst (Main.safe_timer S timeout func (s, [])) = (s, [])) /\
  ((timeout < - 2 ^ 31)%Z \/ (2 ^ 31 <= timeout)%Z ->
   snd (Main.safe_timer S timeout func (s, [])) = Raise OverflowError).
Proof.
  split; [apply fire_all_Permutation |]. split; [| split].
  - intros Hin. apply Permutation_singleton_r.
    unfold Main.safe_timer.
    rewrite (singleShot_in_range _ _ _ Hin). cbn [fst snd app].
    rewrite fire_all_Permutation; [reflexivity |].
    simpl. constructor; [exact Hin | constructor].
  - intros H. unfold Main.safe_timer, Main.singleShot. simpl.
    destruct (Z.ltb_spec timeout (- 2 ^ 31)); simpl; [reflexivity |].
    destruct (Z.leb_spec (2 ^ 31) timeout); simpl; [reflexivity |].
    destruct (Z.ltb_spec timeout 0); [reflexivity | lia].
  - intros H. unfold Main.safe_timer, Main.singleShot. simpl.
    destruct (Z.ltb_spec timeout (- 2 ^ 31)); simpl; [reflexivity |].
    destruct (Z.leb_spec (2 ^ 31) timeout); simpl; [reflexivity | lia].
Qed.

End SafeTimerFacts.

Lemma safe_timer_rearms_witness :
  snd (Main.fire_all nat [0; 0]
         (fst (Main.safe_timer nat 100 (fun n => (Datatypes.S n, Raise TypeError))
                 (0, []))))
  = [Main.MkShot nat 100 (fun n => (Datatypes.S n, Raise TypeError))] /\
  snd (Main.safe_timer nat (2 ^ 31) (fun n => (n, Ok tt)) (0, []))
  = Raise OverflowError.
Proof.
  split.
  - apply (safe_timer_rearms nat 100 (fun n => (Datatypes.S n, Raise TypeError))
             [0; 0] (0, []) 0).
    lia.
  - apply (safe_timer_rearms nat (2 ^ 31) (fun n => (n, Ok tt)) [] (0, []) 0).
    right. lia.
Defined.
